(** * FluidTransitions: [createAnimatedWrapper]

    A shallow embedding of [src/Utils/createAnimatedWrapper.js]: the style
    classification tables, [getFilteredStyle] with its three instances, and
    the three-layer element that [createAnimatedWrapper] builds.

    Conventions of the model.
    - A JavaScript value is a term of [JS.value].  Numbers are the
      integer-valued ones (style ids, [flex: 1]); functions, classes and host
      objects are opaque references [VFun id].
    - A plain object is a finite map from its own enumerable property names
      to values; reading a missing property gives [VUndefined].  Values are
      compared structurally, so object identity is outside the model.
    - The object under construction in [getFilteredStyle] also carries its
      prototype, because the assignment [retVal[key] = v] walks the prototype
      chain: with the key [__proto__] it reaches the accessor inherited from
      [Object.prototype], which replaces the prototype and adds no own
      property, unless an own data property of that name is met first or the
      chain has been cut.  Every other value is a plain object, array or
      function whose own chain ends in [Object.prototype]; functions are
      opaque and take no part in later writes.
    - A string is a sequence of code units below 256.
    - [React.createElement] is a constructor that records its arguments. *)

From stdpp Require Import gmap strings list fin_maps.
From Stdlib Require Import ZArith Ascii String DecimalString.

Set Warnings "-register-all".
Open Scope Z_scope.
Open Scope string_scope.

(** ** JavaScript values and the built-ins the source relies on *)

Module JS.

Inductive value : Type :=
| VUndefined
| VNull
| VBool (b : bool)
| VNum (n : Z)
| VStr (s : string)
| VFun (id : positive)
| VArr (l : list value)
| VObj (m : gmap string value).

(** ToBoolean: the test performed by [if (x)], [!x] and [x || y]. *)
Definition truthy (v : value) : bool :=
  match v with
  | VUndefined | VNull => false
  | VBool b => b
  | VNum n => negb (Z.eqb n 0)
  | VStr s => negb (String.eqb s EmptyString)
  | VFun _ | VArr _ | VObj _ => true
  end.

(** [v instanceof Object]: objects, arrays and functions, no primitive. *)
Definition instanceofObject (v : value) : bool :=
  match v with
  | VFun _ | VArr _ | VObj _ => true
  | _ => false
  end.

(** The property name of array index [i]. *)
Definition index_key (i : nat) : string :=
  NilZero.string_of_uint (Nat.to_uint i).

(** Own enumerable properties: those of an object are its entries, an array
    or a string has one per index, other values have none. *)
Definition ownProps (v : value) : gmap string value :=
  match v with
  | VObj m => m
  | VArr l => list_to_map (imap (fun i x => (index_key i, x)) l)
  | VStr s =>
      list_to_map
        (imap (fun i c => (index_key i, VStr (String c EmptyString)))
              (list_ascii_of_string s))
  | _ => ∅
  end.

Definition Object_keys (v : value) : list string :=
  (map_to_list (ownProps v)).*1.

(** [v[k]] for an own enumerable property [k]; [undefined] when missing. *)
Definition get (v : value) (k : string) : value :=
  default VUndefined (ownProps v !! k).

(** *** The assignment [o[k] = v] on an object under construction *)

(** The prototype of an object: [Object.prototype] (that of [{}]), none
    (after [o.__proto__ = null]), or a value installed by the [__proto__]
    accessor. *)
Inductive prototype : Type :=
| ObjectPrototype
| NullPrototype
| ValuePrototype (v : value).

(** An object with its own enumerable properties and its prototype. *)
Record object : Type := Object {
  own : gmap string value;
  proto : prototype
}.

(** The object literal [{}]. *)
Definition newObject : object := Object ∅ ObjectPrototype.

Definition hasOwn (m : gmap string value) (k : string) : bool :=
  match m !! k with
  | Some _ => true
  | None => false
  end.

(** Whether a write of the key [__proto__], not found among the own
    properties, finds the accessor of [Object.prototype] when it walks up
    from the prototype [p]: not when the chain is empty, and not when the
    prototype is an object with an own data property named [__proto__]. *)
Definition reachesProtoSetter (p : prototype) : bool :=
  match p with
  | ObjectPrototype => true
  | NullPrototype => false
  | ValuePrototype (VObj m) => negb (hasOwn m "__proto__")
  | ValuePrototype _ => true
  end.

(** The setter of [Object.prototype.__proto__]: an object or [null]
    becomes the prototype, any other value is ignored. *)
Definition setPrototype (o : object) (v : value) : object :=
  match v with
  | VNull => Object (own o) NullPrototype
  | VObj _ | VArr _ | VFun _ => Object (own o) (ValuePrototype v)
  | _ => o
  end.

(** [o[k] = v].  The inherited properties a write can meet are writable
    data properties, which give an own property on [o], except the accessor
    [__proto__]. *)
Definition assign (o : object) (k : string) (v : value) : object :=
  if String.eqb k "__proto__" && negb (hasOwn (own o) k)
     && reachesProtoSetter (proto o)
  then setPrototype o v
  else Object (<[k := v]> (own o)) (proto o).

(** [xs.forEach(body)] where [body] updates the state [st]. *)
Definition forEach {A St : Type} (xs : list A) (body : St -> A -> St)
  (st : St) : St :=
  foldl body st xs.

(** [xs.indexOf(key)] on an array of strings (strict equality). *)
Fixpoint indexOf (xs : list string) (key : string) : Z :=
  match xs with
  | [] => -1
  | x :: rest =>
      if String.eqb x key then 0
      else let i := indexOf rest key in
           if Z.eqb i (-1) then -1 else i + 1
  end.

(** *** Which strings convert to NaN

    [isNumber] only asks whether [parseFloat(n)] and [n - 0] are NaN, which
    depends on the syntax of the string alone (ECMAScript, StringToNumber and
    parseFloat). *)

Definition code (c : ascii) : nat := nat_of_ascii c.

Definition between (lo hi : nat) (c : ascii) : bool :=
  (Nat.leb lo (code c) && Nat.leb (code c) hi)%bool.

(** TAB, LF, VT, FF, CR, SP and NBSP. *)
Definition isStrWhiteSpaceChar (c : ascii) : bool :=
  (between 9 13 c || Nat.eqb (code c) 32 || Nat.eqb (code c) 160)%bool.

Definition isDecimalDigit : ascii -> bool := between 48 57.
Definition isBinaryDigit : ascii -> bool := between 48 49.
Definition isOctalDigit : ascii -> bool := between 48 55.
Definition isHexDigit (c : ascii) : bool :=
  (isDecimalDigit c || between 65 70 c || between 97 102 c)%bool.

Definition isSign (c : ascii) : bool :=
  (Nat.eqb (code c) 43 || Nat.eqb (code c) 45)%bool.

Fixpoint trimStart (s : string) : string :=
  match s with
  | String c r => if isStrWhiteSpaceChar c then trimStart r else s
  | EmptyString => EmptyString
  end.

Fixpoint trimEnd (s : string) : string :=
  match s with
  | String c r =>
      match trimEnd r with
      | EmptyString =>
          if isStrWhiteSpaceChar c then EmptyString else String c EmptyString
      | r' => String c r'
      end
  | EmptyString => EmptyString
  end.

Definition skipSign (s : string) : string :=
  match s with
  | String c r => if isSign c then r else s
  | EmptyString => EmptyString
  end.

Fixpoint skipDigits (s : string) : string :=
  match s with
  | String c r => if isDecimalDigit c then skipDigits r else s
  | EmptyString => EmptyString
  end.

Definition startsWithDigit (s : string) : bool :=
  match s with
  | String c _ => isDecimalDigit c
  | EmptyString => false
  end.

Fixpoint allChars (p : ascii -> bool) (s : string) : bool :=
  match s with
  | String c r => (p c && allChars p r)%bool
  | EmptyString => true
  end.

Definition nonEmpty (s : string) : bool :=
  match s with
  | String _ _ => true
  | EmptyString => false
  end.

(** ExponentPart, optional, up to the end of the string. *)
Definition isExponentPartOpt (s : string) : bool :=
  match s with
  | EmptyString => true
  | String c r =>
      (Nat.eqb (code c) 101 || Nat.eqb (code c) 69)%bool
      && (startsWithDigit (skipSign r)
          && String.eqb (skipDigits (skipSign r)) EmptyString)%bool
  end.

Definition isStrUnsignedDecimalLiteral (s : string) : bool :=
  if String.eqb s "Infinity" then true
  else
    match skipDigits s with
    | String "."%char r =>
        (startsWithDigit s || startsWithDigit r)%bool
        && isExponentPartOpt (skipDigits r)
    | r => startsWithDigit s && isExponentPartOpt r
    end.

Definition isStrDecimalLiteral (s : string) : bool :=
  isStrUnsignedDecimalLiteral (skipSign s).

(** [0b], [0o] and [0x] literals (no sign). *)
Definition isNonDecimalIntegerLiteral (s : string) : bool :=
  match s with
  | String "0"%char (String p r) =>
      let n := code p in
      nonEmpty r
      && (if (Nat.eqb n 98 || Nat.eqb n 66)%bool then allChars isBinaryDigit r
          else if (Nat.eqb n 111 || Nat.eqb n 79)%bool
               then allChars isOctalDigit r
          else if (Nat.eqb n 120 || Nat.eqb n 88)%bool
               then allChars isHexDigit r
          else false)
  | _ => false
  end.

(** [isNaN(parseFloat(s))]: no prefix of the left-trimmed string is a
    StrDecimalLiteral. *)
Definition parseFloat_isNaN (s : string) : bool :=
  let t := skipSign (trimStart s) in
  negb (String.prefix "Infinity" t
        || startsWithDigit t
        || match t with
           | String "."%char r => startsWithDigit r
           | _ => false
           end).

(** [isNaN(s - 0)]: the trimmed string is neither empty nor a
    StrNumericLiteral. *)
Definition minus0_isNaN (s : string) : bool :=
  let t := trimEnd (trimStart s) in
  if String.eqb t EmptyString then false
  else negb (isStrDecimalLiteral t || isNonDecimalIntegerLiteral t).

End JS.

Import JS.

(** ** The classification tables (lines 137-368 of the source) *)

Definition excludePropsForComponent : list string :=
  [ "display"; "start"; "end"; "top"; "left"; "right"; "bottom";
    "minWidth"; "maxWidth"; "minHeight"; "maxHeight";
    "margin"; "marginVertical"; "marginHorizontal"; "marginTop";
    "marginBottom"; "marginLeft"; "marginRight"; "marginStart"; "marginEnd";
    "padding"; "paddingVertical"; "paddingHorizontal"; "paddingTop";
    "paddingBottom"; "paddingLeft"; "paddingRight"; "paddingStart";
    "paddingEnd";
    "position"; "flexWrap"; "flex"; "flexGrow"; "flexShrink"; "flexBasis";
    "alignSelf"; "aspectRatio"; "zIndex"; "direction";
    "transform"; "transformMatrix"; "decomposedMatrix"; "scaleX"; "scaleY";
    "rotation"; "translateX"; "translateY";
    "backfaceVisibility"; "backgroundColor";
    "borderColor"; "borderTopColor"; "borderRightColor"; "borderBottomColor";
    "borderLeftColor"; "borderStartColor"; "borderEndColor";
    "borderRadius"; "borderTopLeftRadius"; "borderTopRightRadius";
    "borderTopStartRadius"; "borderTopEndRadius"; "borderBottomLeftRadius";
    "borderBottomRightRadius"; "borderBottomStartRadius";
    "borderBottomEndRadius"; "borderStyle" ].

Definition includePropsForNativeStyles : list string :=
  [ "display"; "width"; "height"; "start"; "end"; "top"; "left"; "right";
    "bottom"; "minWidth"; "maxWidth"; "minHeight"; "maxHeight";
    "margin"; "marginVertical"; "marginHorizontal"; "marginTop";
    "marginBottom"; "marginLeft"; "marginRight"; "marginStart"; "marginEnd";
    "position"; "flexDirection"; "flexWrap"; "flex"; "flexGrow";
    "flexShrink"; "flexBasis"; "alignSelf"; "aspectRatio"; "zIndex";
    "direction"; "transform" ].

Definition excludePropsForStyles : list string :=
  [ "display"; "start"; "end"; "top"; "left"; "right"; "bottom";
    "minWidth"; "maxWidth"; "minHeight"; "maxHeight";
    "margin"; "marginVertical"; "marginHorizontal"; "marginTop";
    "marginBottom"; "marginLeft"; "marginRight"; "marginStart"; "marginEnd";
    "position"; "alignSelf"; "alignContent"; "overflow";
    "flexGrow"; "flexShrink"; "flexBasis"; "aspectRatio"; "zIndex";
    "direction";
    "transform"; "transformMatrix"; "decomposedMatrix"; "scaleX"; "scaleY";
    "rotation"; "translateX"; "translateY";
    "textAlign" ].

(** ** [isNumber] (line 135) *)

Definition isNumber (n : string) : bool :=
  negb (parseFloat_isNaN n) && negb (minus0_isNaN n).

(** ** External collaborators

    [StyleSheet.flatten], [View] and [Animated.createAnimatedComponent]
    belong to react-native; the development is parametric in them. *)

Class ReactNative : Type := {
  StyleSheet_flatten : value -> value;
  View : value;
  Animated_createAnimatedComponent : value -> value
}.

Section Source.

Context `{RN : ReactNative}.

(** ** [getFilteredStyle] (lines 105-133) *)

(** The body of [keys.forEach] for one entry [s] of the style array. *)
Definition copyKey (shouldIncludeKey : string -> bool) (s : value)
  (retVal : object) (key : string) : object :=
  if negb (isNumber key) && shouldIncludeKey key
  then assign retVal key (get s key)
  else retVal.

(** The body of [flattenedStyle.forEach]. *)
Definition copyStyle (shouldIncludeKey : string -> bool)
  (retVal : object) (s : value) : object :=
  if truthy s
  then forEach (Object_keys s) (copyKey shouldIncludeKey s) retVal
  else retVal.

Definition getFilteredStyle (styles : value)
  (shouldIncludeKey : string -> bool) : value :=
  if negb (truthy styles) then styles
  else
    let flattenedStyle :=
      if negb (instanceofObject styles) then StyleSheet_flatten styles
      else styles in
    if negb (truthy flattenedStyle) then styles
    else
      let flattenedStyle :=
        match flattenedStyle with
        | VArr l => l
        | _ => [flattenedStyle]
        end in
      VObj (own (forEach flattenedStyle (copyStyle shouldIncludeKey)
                   newObject)).

(** ** The three buckets (lines 96-103) *)

Definition getNativeAnimatableStyles (styles : value) : value :=
  getFilteredStyle styles
    (fun key => Z.gtb (indexOf includePropsForNativeStyles key) (-1)).

Definition getAnimatableStyles (styles : value) : value :=
  getFilteredStyle styles
    (fun key => Z.eqb (indexOf excludePropsForStyles key) (-1)).

Definition getComponentStyles (styles : value) : value :=
  getFilteredStyle styles
    (fun key => Z.eqb (indexOf excludePropsForComponent key) (-1)).

(** ** [createAnimated] (lines 90-94) *)

Definition createAnimated : value := Animated_createAnimatedComponent View.

(** ** [createAnimatedWrapper] (lines 39-88) *)

(** The component handed to the wrapper, as far as the source reads it:
    [component.type], [component.props], [component.key], [component.ref]
    and [component.onLayout].  A field the component lacks reads as
    [VUndefined]. *)
Record component : Type := Component {
  type : value;
  props : gmap string value;
  key : value;
  ref : value;
  onLayout : value
}.

(** [React.createElement(type, props, ...children)]. *)
Inductive element : Type :=
| createElement (etype : value) (eprops : gmap string value)
    (children : list element).

Definition elementType (e : element) : value :=
  match e with createElement t _ _ => t end.
Definition elementProps (e : element) : gmap string value :=
  match e with createElement _ p _ => p end.
Definition elementChildren (e : element) : list element :=
  match e with createElement _ _ c => c end.

(** [o.k] on a plain object. *)
Definition prop (o : gmap string value) (k : string) : value :=
  default VUndefined (o !! k).

(** [a || b]. *)
Definition or_else (a b : value) : value := if truthy a then a else b.

Definition createAnimatedWrapper (component : component)
  (nativeStyles styles nativeCached cached : value) : element :=
  let nativeAnimatedComponent := or_else nativeCached createAnimated in
  let animatedComponent := or_else cached createAnimated in
  let nativeAnimatedStyles :=
    getNativeAnimatableStyles (prop (props component) "style") in
  let animatedStyles := getAnimatableStyles (prop (props component) "style") in
  let componentStyles := getComponentStyles (prop (props component) "style") in
  let innerElement :=
    createElement (type component)
      (<["style" := componentStyles]> (props component)) [] in
  let animatedElement :=
    createElement animatedComponent
      {[ "style" :=
           VArr [animatedStyles; styles;
                 VObj {[ "overflow" := VStr "hidden" ]}] ]}
      [innerElement] in
  let props0 : gmap string value :=
    <["style" := VArr [nativeAnimatedStyles; nativeStyles]]>
      {[ "collapsable" := VBool false ]} in
  let props1 :=
    if truthy (key component) then <["key" := key component]> props0
    else props0 in
  let props2 :=
    if truthy (ref component) then <["ref" := ref component]> props1
    else props1 in
  let props3 :=
    if truthy (onLayout component)
    then <["onLayout" := onLayout component]> props2
    else props2 in
  createElement nativeAnimatedComponent props3 [animatedElement].

End Source.

(** ** Vocabulary of the statements *)

(** A key is copied when it is not numeric and the bucket accepts it. *)
Definition selects (p : string -> bool) (k : string) : bool :=
  negb (isNumber k) && p k.

(** The properties one entry of the style array contributes. *)
Definition contribution (p : string -> bool) (s : value) : gmap string value :=
  filter (fun kv => selects p kv.1 = true)
         (if truthy s then ownProps s else ∅).

(** A field of the component that is missing ([undefined]) or [null]. *)
Definition absent (v : value) : Prop := v = VUndefined \/ v = VNull.

(** The sample style of the specification, with any transform value. *)
Definition sampleStyle (t : value) : value :=
  VObj {[ "transform" := t; "backgroundColor" := VStr "red";
          "flex" := VNum 1 ]}.

(** The transform block of the tables (lines 179-186 and 339-346). *)
Definition transformProps : list string :=
  [ "transform"; "transformMatrix"; "decomposedMatrix"; "scaleX"; "scaleY";
    "rotation"; "translateX"; "translateY" ].

(** ** A concrete instance

    Stand-ins for the react-native collaborators: a style sheet with one
    registered style (id 1), the [View] type and the animated wrapper type
    made from it. *)

Definition sheet_flatten (v : value) : value :=
  match v with
  | VNum 1 => VObj {[ "width" := VNum 10; "opacity" := VNum 1 ]}
  | _ => VUndefined
  end.

Definition ViewType : value := VFun 1.

Definition animatedType (t : value) : value :=
  match t with
  | VFun id => VFun (id~1)
  | _ => VUndefined
  end.

Definition sheet : ReactNative := {|
  StyleSheet_flatten := sheet_flatten;
  View := ViewType;
  Animated_createAnimatedComponent := animatedType
|}.

Definition rotate90 : value := VArr [VObj {[ "rotate" := VStr "90deg" ]}].

Definition sampleMap : gmap string value :=
  {[ "transform" := rotate90; "backgroundColor" := VStr "red";
     "flex" := VNum 1 ]}.

(** [<View style={{transform: [{rotate: '90deg'}], backgroundColor: 'red',
    flex: 1}} testID="box" />], without key or ref. *)
Definition sampleComponent : component :=
  Component ViewType
    {[ "style" := sampleStyle rotate90; "testID" := VStr "box" ]}
    VNull VNull VUndefined.

(** The same component with the empty string as key, [ref] null and
    [onLayout] 0. *)
Definition falsyKeyComponent : component :=
  Component ViewType
    {[ "style" := sampleStyle rotate90; "testID" := VStr "box" ]}
    (VStr EmptyString) VNull (VNum 0).

(** Two mappings that both define [color], and style inputs with a numeric
    key, with a transform property and with the three kept geometry keys. *)
Definition redStyle : gmap string value :=
  {[ "color" := VStr "red"; "width" := VNum 1 ]}.

Definition blueStyle : gmap string value := {[ "color" := VStr "blue" ]}.

Definition numericKeyStyle : value :=
  VArr [VObj {[ "0" := VNum 7; "flex" := VNum 2 ]}; rotate90].

Definition translatedStyle : gmap string value :=
  {[ "translateX" := VNum 5; "width" := VNum 100 ]}.

Definition geometryStyle : gmap string value :=
  {[ "width" := VNum 100; "height" := VNum 50; "flex" := VNum 1 ]}.

(** The predicate that accepts every key: plain flattening. *)
Definition anyKey (key : string) : bool := true.

Definition wrapSample (c : component) : element :=
  createAnimatedWrapper (RN := sheet) c
    VUndefined VUndefined VUndefined VUndefined.

(** ** Vocabulary of the further properties *)

(** The value the last truthy entry of a style array gives to the key [k],
    if any entry defines it. *)
Fixpoint lastDefined (l : list value) (k : string) : option value :=
  match l with
  | [] => None
  | s :: rest =>
      match lastDefined rest k with
      | Some v => Some v
      | None => if truthy s then ownProps s !! k else None
      end
  end.

(** The entries that [getFilteredStyle] folds into the new object for the
    input [styles]; none when the input is handed back. *)
Definition styleEntries `{RN : ReactNative} (styles : value) : list value :=
  if negb (truthy styles) then []
  else
    let flattenedStyle :=
      if negb (instanceofObject styles) then StyleSheet_flatten styles
      else styles in
    if negb (truthy flattenedStyle) then []
    else
      match flattenedStyle with
      | VArr l => l
      | _ => [flattenedStyle]
      end.

(** No entry of the style has an own property named [__proto__]. *)
Definition protoFree `{RN : ReactNative} (styles : value) : Prop :=
  Forall (fun s => ownProps s !! "__proto__" = None) (styleEntries styles).

(** The transform properties other than [transform] itself (lines 180-186
    and 340-346 of the tables). *)
Definition droppedProps : list string :=
  [ "transformMatrix"; "decomposedMatrix"; "scaleX"; "scaleY"; "rotation";
    "translateX"; "translateY" ].

(** An ASCII letter. *)
Definition isLetter (c : ascii) : bool :=
  (between 65 90 c || between 97 122 c)%bool.

(** A component without any style prop, and a style array nested in
    another. *)
Definition bareComponent : component :=
  Component ViewType {[ "testID" := VStr "box" ]} VNull VNull VUndefined.


(** Style objects with an own property named [__proto__] (as
    [JSON.parse] makes them), one of them with a numeric key as well. *)
Definition protoStyle : gmap string value :=
  {[ "__proto__" := VNum 1; "color" := VStr "red" ]}.

Definition oddKeysA : gmap string value :=
  {[ "0" := VNum 1; "__proto__" := VNum 1 ]}.

Definition oddKeysB : gmap string value :=
  {[ "0" := VNum 2; "__proto__" := VNum 2 ]}.

Definition nullProtoStyle : gmap string value := {[ "__proto__" := VNull ]}.

(** * Properties *)

Section Properties.

Set Default Proof Using "Type".

Context `{RN : ReactNative}.

(** ** Properties of the built-ins *)

Lemma indexOf_lower (xs : list string) (k : string) : -1 <= indexOf xs k.
Proof.
  induction xs as [|x xs IH]; simpl; [lia|].
  destruct (String.eqb x k); [lia|].
  destruct (Z.eqb_spec (indexOf xs k) (-1)); lia.
Qed.

Lemma indexOf_absent (xs : list string) (k : string) :
  indexOf xs k = -1 <-> k ∉ xs.
Proof.
  induction xs as [|x xs IH]; simpl.
  - split; [intros _; apply not_elem_of_nil | done].
  - rewrite not_elem_of_cons. destruct (String.eqb_spec x k) as [->|Hne].
    + split; [lia | intros [? _]; congruence].
    + pose proof (indexOf_lower xs k).
      destruct (Z.eqb_spec (indexOf xs k) (-1)) as [E|E].
      * split; [intros _; split; [congruence | by apply IH] | done].
      * split; [lia | intros [_ H']; apply IH in H'; lia].
Qed.

Lemma indexOf_found_iff (xs : list string) (k : string) :
  Z.gtb (indexOf xs k) (-1) = true <-> k ∈ xs.
Proof.
  pose proof (indexOf_lower xs k). pose proof (indexOf_absent xs k) as Ha.
  rewrite Z.gtb_lt. destruct (decide (k ∈ xs)) as [Hin|Hout].
  - split; [done | intros _].
    destruct (Z.eq_dec (indexOf xs k) (-1)) as [E|E]; [|lia].
    by apply Ha in E.
  - apply Ha in Hout. split; [lia | intros Hin; exfalso].
    apply Ha in Hout. done.
Qed.

Lemma indexOf_missing_iff (xs : list string) (k : string) :
  Z.eqb (indexOf xs k) (-1) = true <-> k ∉ xs.
Proof. rewrite Z.eqb_eq. apply indexOf_absent. Qed.

(** Membership in a table, decided by the source's own [indexOf] test. *)
Ltac table_lookup :=
  first [ apply indexOf_found_iff; reflexivity
        | apply indexOf_missing_iff; reflexivity
        | reflexivity ].

Lemma elem_of_Object_keys (s : value) (k : string) :
  k ∈ Object_keys s <-> is_Some (ownProps s !! k).
Proof.
  unfold Object_keys. rewrite list_elem_of_fmap. split.
  - intros [[k' v] [-> Hin]]. apply elem_of_map_to_list in Hin. by exists v.
  - intros [v Hv]. exists (k, v). split; [done|].
    by apply elem_of_map_to_list.
Qed.

(** ** What [getFilteredStyle] computes *)

Lemma contribution_lookup (p : string -> bool) (s : value) (k : string)
  (v : value) :
  contribution p s !! k = Some v <->
  truthy s = true /\ ownProps s !! k = Some v /\ isNumber k = false
  /\ p k = true.
Proof.
  unfold contribution. rewrite map_lookup_filter_Some. simpl.
  unfold selects. rewrite andb_true_iff, negb_true_iff.
  destruct (truthy s).
  - split; [intros (? & ? & ?) | intros (_ & ? & ? & ?)]; auto.
  - rewrite lookup_empty. split; [intros [? _] | intros [? _]]; discriminate.
Qed.

Lemma contribution_numeric (p : string -> bool) (s : value) (k : string) :
  isNumber k = true -> contribution p s !! k = None.
Proof.
  intros Hk. apply eq_None_not_Some. intros [v Hv].
  apply contribution_lookup in Hv. destruct Hv as (_ & _ & Hn & _).
  congruence.
Qed.

Lemma contribution_falsy (p : string -> bool) (s : value) :
  truthy s = false -> contribution p s = ∅.
Proof. intros Hs. unfold contribution. rewrite Hs. apply map_filter_empty. Qed.

Lemma contribution_empty_object (p : string -> bool) :
  contribution p (VObj ∅) = ∅.
Proof. unfold contribution. simpl. apply map_filter_empty. Qed.

(** *** The assignment *)

Lemma own_setPrototype (o : object) (v : value) :
  own (setPrototype o v) = own o.
Proof. by destruct v. Qed.

Lemma assign_lookup_ne (o : object) (k j : string) (v : value) :
  k <> j -> own (assign o k v) !! j = own o !! j.
Proof.
  intros Hne. unfold assign.
  destruct (String.eqb k "__proto__" && negb (hasOwn (own o) k)
            && reachesProtoSetter (proto o)).
  - by rewrite own_setPrototype.
  - simpl. by rewrite lookup_insert_ne.
Qed.

Lemma assign_lookup_eq (o : object) (k : string) (v : value) :
  k <> "__proto__" -> own (assign o k v) !! k = Some v.
Proof.
  intros Hne. unfold assign.
  destruct (String.eqb_spec k "__proto__") as [->|_]; [done|].
  simpl. by rewrite lookup_insert_eq.
Qed.

Lemma forEach_copyKey (p : string -> bool) (s : value) (ks : list string)
  (o : object) (k : string) :
  k <> "__proto__" ->
  own (forEach ks (copyKey p s) o) !! k =
  if bool_decide (k ∈ ks) && selects p k then Some (get s k)
  else own o !! k.
Proof.
  intros Hk. unfold forEach. revert o.
  induction ks as [|x ks IH]; intros o; simpl.
  - done.
  - rewrite IH. destruct (decide (k ∈ ks)) as [Hin|Hout].
    + rewrite (bool_decide_eq_true_2 (k ∈ ks)) by done.
      rewrite (bool_decide_eq_true_2 (k ∈ x :: ks)) by (by right).
      simpl. destruct (selects p k) eqn:Hsel; [done|].
      unfold copyKey. fold (selects p x).
      destruct (selects p x) eqn:Hx; [|done].
      rewrite assign_lookup_ne; [done | congruence].
    + rewrite (bool_decide_eq_false_2 (k ∈ ks)) by done. simpl.
      unfold copyKey. fold (selects p x).
      destruct (decide (x = k)) as [->|Hne].
      * rewrite (bool_decide_eq_true_2 (k ∈ k :: ks)) by (by left). simpl.
        destruct (selects p k); [by rewrite assign_lookup_eq | done].
      * rewrite (bool_decide_eq_false_2 (k ∈ x :: ks))
          by (rewrite elem_of_cons; intros [?|?]; congruence).
        simpl. destruct (selects p x); [by rewrite assign_lookup_ne | done].
Qed.

(** A key that is not written keeps its state, [__proto__] included. *)
Lemma forEach_copyKey_untouched (p : string -> bool) (s : value)
  (ks : list string) (o : object) (k : string) :
  k ∉ ks \/ selects p k = false ->
  own (forEach ks (copyKey p s) o) !! k = own o !! k.
Proof.
  intros Hk. unfold forEach. revert o.
  induction ks as [|x ks IH]; intros o; simpl; [done|].
  rewrite IH.
  - unfold copyKey. fold (selects p x).
    destruct (selects p x) eqn:Hx; [|done].
    apply assign_lookup_ne. intros ->.
    destruct Hk as [Hk|Hk]; [|congruence]. apply Hk. by left.
  - destruct Hk as [Hk|Hk]; [left | by right].
    intros Hin. apply Hk. by right.
Qed.

(** Keys that are all rejected leave the object as it is. *)
Lemma forEach_copyKey_rejected (p : string -> bool) (s : value)
  (ks : list string) (o : object) :
  (forall k, k ∈ ks -> selects p k = false) ->
  forEach ks (copyKey p s) o = o.
Proof.
  intros Hks. unfold forEach. revert o.
  induction ks as [|x ks IH]; intros o; simpl; [done|].
  rewrite IH by (intros k Hk; apply Hks; by right).
  unfold copyKey. fold (selects p x). rewrite Hks; [done | by left].
Qed.

(** While the accessor is in reach, writing the keys of one object, each
    once, never gives an own property [__proto__]. *)
Lemma forEach_copyKey_proto (p : string -> bool) (s : value)
  (ks : list string) (o : object) :
  NoDup ks -> own o !! "__proto__" = None ->
  ("__proto__" ∈ ks -> reachesProtoSetter (proto o) = true) ->
  own (forEach ks (copyKey p s) o) !! "__proto__" = None.
Proof.
  unfold forEach. revert o.
  induction ks as [|x ks IH]; intros o Hnd Hown Hreach; simpl; [done|].
  apply NoDup_cons in Hnd as [Hx Hnd].
  destruct (decide (x = "__proto__")) as [->|Hne].
  - change (own (forEach ks (copyKey p s) (copyKey p s o "__proto__"))
            !! "__proto__" = None).
    rewrite forEach_copyKey_untouched by (by left).
    unfold copyKey. destruct (negb _ && _); [|done].
    unfold assign, hasOwn. rewrite Hown, Hreach by (by left).
    simpl. by rewrite own_setPrototype.
  - assert (Hsame : own (copyKey p s o x) !! "__proto__" = None
                    /\ proto (copyKey p s o x) = proto o).
    { unfold copyKey. destruct (negb _ && _); [|done].
      unfold assign. destruct (String.eqb_spec x "__proto__"); [done|].
      simpl. by rewrite lookup_insert_ne. }
    destruct Hsame as [Hown' Hproto']. apply IH; [done | done |].
    rewrite Hproto'. intros Hin. apply Hreach. by right.
Qed.

(** *** One entry of the style array *)

Lemma copyStyle_lookup (p : string -> bool) (o : object) (s : value)
  (k : string) :
  k <> "__proto__" ->
  own (copyStyle p o s) !! k = (contribution p s ∪ own o) !! k.
Proof.
  intros Hne. unfold copyStyle, contribution.
  rewrite lookup_union, map_lookup_filter.
  destruct (truthy s).
  - rewrite forEach_copyKey by done. unfold get.
    destruct (ownProps s !! k) as [v|] eqn:Hk; simpl.
    + rewrite bool_decide_eq_true_2
        by (apply elem_of_Object_keys; by exists v).
      simpl. destruct (selects p k) eqn:Hsel.
      * rewrite option_guard_True by done. simpl.
        by rewrite union_Some_l.
      * rewrite option_guard_False by (simpl; congruence). simpl.
        by rewrite (left_id_L None _).
    + rewrite bool_decide_eq_false_2; [by rewrite (left_id_L None _)|].
      rewrite elem_of_Object_keys, Hk. by intros [? ?].
  - rewrite lookup_empty. simpl. by rewrite (left_id_L None _).
Qed.

Lemma copyStyle_untouched (p : string -> bool) (o : object) (s : value)
  (k : string) :
  ownProps s !! k = None \/ selects p k = false ->
  own (copyStyle p o s) !! k = own o !! k.
Proof.
  intros Hk. unfold copyStyle. destruct (truthy s); [|done].
  apply forEach_copyKey_untouched. destruct Hk as [Hk|Hk]; [left | by right].
  rewrite elem_of_Object_keys, Hk. by intros [? ?].
Qed.

(** An entry without any selected key leaves the object as it is. *)
Lemma copyStyle_none (p : string -> bool) (o : object) (s : value) :
  contribution p s = ∅ -> copyStyle p o s = o.
Proof.
  intros Hnone. unfold copyStyle. destruct (truthy s) eqn:Ht; [|done].
  apply forEach_copyKey_rejected. intros k [v Hv]%elem_of_Object_keys.
  destruct (selects p k) eqn:Hs; [|done].
  assert (contribution p s !! k = Some v) as Hc.
  { apply contribution_lookup.
    apply andb_true_iff in Hs as [Hn%negb_true_iff Hp]. by repeat split. }
  rewrite Hnone, lookup_empty in Hc. discriminate.
Qed.

(** *** Index keys are numeric

    The keys of an array or of a string are decimal index strings, which
    [isNumber] recognises; such an entry of the style array adds nothing. *)









(** *** The whole fold *)

(** A key that no entry defines, or that the filter does not select, is
    never written. *)
Lemma forEach_copyStyle_untouched (p : string -> bool) (l : list value)
  (o : object) (k : string) :
  Forall (fun s => ownProps s !! k = None) l \/ selects p k = false ->
  own (forEach l (copyStyle p) o) !! k = own o !! k.
Proof.
  intros Hk. unfold forEach. revert o.
  induction l as [|s l IH]; intros o; simpl; [done|].
  rewrite IH.
  - apply copyStyle_untouched.
    destruct Hk as [Hk|Hk]; [left | by right].
    by apply Forall_cons in Hk as [? _].
  - destruct Hk as [Hk|Hk]; [left | by right].
    by apply Forall_cons in Hk as [_ ?].
Qed.

Lemma forEach_copyStyle_unselected (p : string -> bool) (l : list value)
  (o : object) (k : string) :
  selects p k = false ->
  own (forEach l (copyStyle p) o) !! k = own o !! k.
Proof. intros Hk. apply forEach_copyStyle_untouched. by right. Qed.

(** An object is filtered key by key; its key [__proto__], if it has one,
    goes to the accessor and is not kept. *)
Lemma getFilteredStyle_object (m : gmap string value) (p : string -> bool) :
  getFilteredStyle (VObj m) p
  = VObj (delete "__proto__" (contribution p (VObj m))).
Proof.
  unfold getFilteredStyle. simpl. unfold forEach. simpl. f_equal.
  apply map_eq; intros k.
  destruct (decide (k = "__proto__")) as [->|Hne].
  - rewrite lookup_delete_eq. unfold copyStyle. simpl.
    apply forEach_copyKey_proto; [|done..].
    apply NoDup_fst_map_to_list.
  - rewrite lookup_delete_ne by done.
    rewrite copyStyle_lookup by done. simpl.
    by rewrite lookup_union, lookup_empty, (right_id_L None _).
Qed.

(** The last entry of a style array wins. *)
Lemma getFilteredStyle_last (l : list value) (B : gmap string value)
  (p : string -> bool) (k : string) (v : value) :
  isNumber k = false -> p k = true -> k <> "__proto__" ->
  B !! k = Some v ->
  exists r : gmap string value,
    getFilteredStyle (VArr (l ++ [VObj B])) p = VObj r /\ r !! k = Some v.
Proof.
  intros Hnum Hp Hne HB. unfold getFilteredStyle. simpl.
  eexists. split; [done|].
  unfold forEach. rewrite foldl_app. simpl.
  rewrite copyStyle_lookup by done.
  apply lookup_union_Some_l. apply contribution_lookup. by repeat split.
Qed.

(** An entry that contributes nothing can be dropped anywhere. *)
Lemma getFilteredStyle_skip (l1 l2 : list value) (e : value)
  (p : string -> bool) :
  contribution p e = ∅ ->
  getFilteredStyle (VArr (l1 ++ e :: l2)) p
  = getFilteredStyle (VArr (l1 ++ l2)) p.
Proof.
  intros He. unfold getFilteredStyle. simpl. unfold forEach.
  rewrite !foldl_app. simpl. by rewrite (copyStyle_none _ _ _ He).
Qed.

(** The result is either the input itself, a primitive that was handed back,
    or a freshly built object without any unselected key. *)
Lemma getFilteredStyle_shape (styles : value) (p : string -> bool) :
  match getFilteredStyle styles p with
  | VObj b => forall k, selects p k = false -> b !! k = None
  | r => r = styles /\ instanceofObject styles = false
  end.
Proof.
  unfold getFilteredStyle.
  destruct (truthy styles) eqn:Ht; simpl.
  - destruct (instanceofObject styles) eqn:Hi; simpl.
    + rewrite Ht. simpl. intros k Hk.
      by rewrite forEach_copyStyle_unselected.
    + destruct (truthy (StyleSheet_flatten styles)) eqn:Hf; simpl.
      * intros k Hk. by rewrite forEach_copyStyle_unselected.
      * by destruct styles.
  - by destruct styles.
Qed.

(** Membership in a delete-free bucket of one object. *)
Lemma object_bucket_is_Some (m : gmap string value) (p : string -> bool)
  (k : string) (v : value) :
  m !! k = Some v -> isNumber k = false ->
  is_Some (delete "__proto__" (contribution p (VObj m)) !! k)
  <-> p k = true /\ k <> "__proto__".
Proof.
  intros Hk Hnum. split.
  - intros [x Hx]. apply lookup_delete_Some in Hx as [Hne Hx].
    apply contribution_lookup in Hx. destruct Hx as (_ & _ & _ & Hp).
    split; [done | congruence].
  - intros [Hp Hne]. exists v. rewrite lookup_delete_ne by congruence.
    apply contribution_lookup. by repeat split.
Qed.

(** ** The claims about [getFilteredStyle] and the buckets *)

(** C2, as amended.  For a flattened style mapping [m] and a non-numeric
    key [k] of it other than [__proto__]: [k] is in the fast-driver bucket
    iff it is listed in [includePropsForNativeStyles], in the general-driver
    bucket iff it is not listed in [excludePropsForStyles], and in the static
    bucket iff it is not listed in [excludePropsForComponent]; every bucket
    is a sub-mapping of [m], so an included key keeps its value.  The three
    tests are independent: [width] lands in all three buckets, [flex] in
    two, and [scaleX] in none. *)
Theorem bucket_membership :
  (forall (m : gmap string value) (k : string) (v : value),
      m !! k = Some v -> isNumber k = false -> k <> "__proto__" ->
      exists native general static : gmap string value,
        getNativeAnimatableStyles (VObj m) = VObj native
        /\ getAnimatableStyles (VObj m) = VObj general
        /\ getComponentStyles (VObj m) = VObj static
        /\ (is_Some (native !! k) <-> k ∈ includePropsForNativeStyles)
        /\ (is_Some (general !! k) <-> k ∉ excludePropsForStyles)
        /\ (is_Some (static !! k) <-> k ∉ excludePropsForComponent)
        /\ native ⊆ m /\ general ⊆ m /\ static ⊆ m)
  /\ (("width" ∈ includePropsForNativeStyles)
      /\ ("width" ∉ excludePropsForStyles)
      /\ ("width" ∉ excludePropsForComponent))
  /\ (("flex" ∈ includePropsForNativeStyles)
      /\ ("flex" ∉ excludePropsForStyles)
      /\ ("flex" ∈ excludePropsForComponent))
  /\ (("scaleX" ∉ includePropsForNativeStyles)
      /\ ("scaleX" ∈ excludePropsForStyles)
      /\ ("scaleX" ∈ excludePropsForComponent)
      /\ isNumber "scaleX" = false).
Proof.
  split; [|repeat split; table_lookup].
  intros m k v Hk Hnum Hne.
  unfold getNativeAnimatableStyles, getAnimatableStyles, getComponentStyles.
  rewrite !getFilteredStyle_object.
  eexists _, _, _. split; [done|]. split; [done|]. split; [done|].
  rewrite !(object_bucket_is_Some m _ k v Hk Hnum).
  rewrite indexOf_found_iff, !indexOf_missing_iff.
  assert (Hsub : forall p, delete "__proto__" (contribution p (VObj m)) ⊆ m).
  { intros p. etrans; [apply delete_subseteq | apply map_filter_subseteq]. }
  split_and!; try apply Hsub; (split; [by intros [? _] | done]).
Qed.

(** C3, as amended.  Flattening an array of style mappings is
    last-write-wins per key: for [[A, B]] every key other than [__proto__]
    that is non-numeric and accepted by the bucket gets the value [B] gives
    it, or else the value [A] gives it, and no other such key is present; so
    when both define [k] the result holds [B[k]], as does any array that
    ends with [B].  A falsy or empty entry changes nothing: [[A, e, B]]
    gives the same mapping as [[A, B]], and likewise at any position of any
    array. *)
Theorem flatten_last_write_wins (p : string -> bool)
  (A B : gmap string value) :
  (exists r : gmap string value,
      getFilteredStyle (VArr [VObj A; VObj B]) p = VObj r
      /\ forall k : string,
          k <> "__proto__" ->
          r !! k = if negb (isNumber k) && p k then (B ∪ A) !! k else None)
  /\ (forall (l : list value) (k : string) (v : value),
         isNumber k = false -> p k = true -> k <> "__proto__" ->
         B !! k = Some v ->
         exists r : gmap string value,
           getFilteredStyle (VArr (l ++ [VObj B])) p = VObj r
           /\ r !! k = Some v)
  /\ (forall e : value,
         (truthy e = false \/ e = VObj ∅) ->
         getFilteredStyle (VArr [VObj A; e; VObj B]) p
         = getFilteredStyle (VArr [VObj A; VObj B]) p
         /\ forall l1 l2 : list value,
             getFilteredStyle (VArr (l1 ++ e :: l2)) p
             = getFilteredStyle (VArr (l1 ++ l2)) p).
Proof.
  split; [|split].
  - unfold getFilteredStyle. simpl. eexists. split; [done|].
    intros k Hne. unfold forEach. simpl.
    rewrite copyStyle_lookup, lookup_union by done.
    rewrite copyStyle_lookup, lookup_union by done. simpl.
    rewrite lookup_empty, (right_id_L None _).
    fold (selects p k).
    destruct (selects p k) eqn:Hsel.
    + apply andb_true_iff in Hsel as [Hn%negb_true_iff Hp].
      assert (Hc : forall m : gmap string value,
                 contribution p (VObj m) !! k = m !! k).
      { intros m. destruct (m !! k) as [x|] eqn:Hm.
        - apply contribution_lookup. by repeat split.
        - apply eq_None_not_Some. intros [x Hx].
          apply contribution_lookup in Hx. destruct Hx as (_ & Hx & _).
          simpl in Hx. congruence. }
      by rewrite !Hc, lookup_union.
    + assert (Hc : forall m : gmap string value,
                 contribution p (VObj m) !! k = None).
      { intros m. apply eq_None_not_Some. intros [x Hx].
        apply contribution_lookup in Hx. destruct Hx as (_ & _ & Hn & Hp).
        unfold selects in Hsel. rewrite Hn, Hp in Hsel. discriminate. }
      by rewrite !Hc.
  - intros l k v Hnum Hp Hne HB. by apply getFilteredStyle_last.
  - intros e He.
    assert (Hnone : contribution p e = ∅).
    { destruct He as [He| ->];
        [by apply contribution_falsy | apply contribution_empty_object]. }
    split.
    + by apply (getFilteredStyle_skip [VObj A] [VObj B]).
    + intros l1 l2. by apply getFilteredStyle_skip.
Qed.

(** C4. No bucket ever holds a numeric key: whatever the style input and
    the predicate, an object returned by [getFilteredStyle] (hence by each of
    the three bucket functions) has no key [k] with [isNumber k], even when
    the predicate accepts [k]; when no object is returned, the result is the
    primitive input handed back. *)
Theorem numeric_keys_excluded (styles : value) :
  let no_numeric_key (r : value) : Prop :=
    match r with
    | VObj b => forall k, isNumber k = true -> b !! k = None
    | _ => r = styles /\ instanceofObject styles = false
    end in
  (forall p : string -> bool, no_numeric_key (getFilteredStyle styles p))
  /\ no_numeric_key (getNativeAnimatableStyles styles)
  /\ no_numeric_key (getAnimatableStyles styles)
  /\ no_numeric_key (getComponentStyles styles).
Proof.
  intros no_numeric_key.
  assert (H : forall p, no_numeric_key (getFilteredStyle styles p)).
  { intros p. pose proof (getFilteredStyle_shape styles p) as Hs.
    unfold no_numeric_key. destruct (getFilteredStyle styles p); try done.
    intros k Hk. apply Hs. unfold selects. by rewrite Hk. }
  repeat split; apply H.
Qed.

(** C5, as amended.  [getFilteredStyle] hands its input back unchanged in
    exactly two cases: the input is falsy (absent, null), or it is a
    primitive and [StyleSheet.flatten] of it is falsy.  In every other case,
    including an input whose flattening is empty such as [[]] or [{}], it
    returns a newly built object, which is empty when no key is selected. *)
Theorem getFilteredStyle_passthrough (styles : value) (p : string -> bool) :
  (truthy styles = false -> getFilteredStyle styles p = styles)
  /\ (truthy styles = true -> instanceofObject styles = false ->
      truthy (StyleSheet_flatten styles) = false ->
      getFilteredStyle styles p = styles)
  /\ (truthy styles = true ->
      (instanceofObject styles = true
       \/ truthy (StyleSheet_flatten styles) = true) ->
      exists b : gmap string value, getFilteredStyle styles p = VObj b)
  /\ getFilteredStyle (VArr []) p = VObj ∅
  /\ getFilteredStyle (VObj ∅) p = VObj ∅.
Proof.
  unfold getFilteredStyle. repeat split.
  - by intros ->.
  - intros Ht Hi Hf. rewrite Ht, Hi. simpl. by rewrite Hf.
  - intros Ht [Hi | Hf]; rewrite Ht; simpl.
    + rewrite Hi. simpl. rewrite Ht. simpl. by eexists.
    + destruct (instanceofObject styles); simpl;
        [rewrite Ht | rewrite Hf]; simpl; by eexists.
Qed.

(** ** The claims about the wrapper *)

Lemma outer_props_lookup (c : component) (ns s nc ch : value) (k : string) :
  elementProps (createAnimatedWrapper c ns s nc ch) !! k =
  if decide (k = "onLayout")
  then (if truthy (onLayout c) then Some (onLayout c) else None)
  else if decide (k = "ref")
  then (if truthy (ref c) then Some (ref c) else None)
  else if decide (k = "key")
  then (if truthy (key c) then Some (key c) else None)
  else if decide (k = "style")
  then Some (VArr [getNativeAnimatableStyles (prop (props c) "style"); ns])
  else if decide (k = "collapsable") then Some (VBool false)
  else None.
Proof.
  unfold createAnimatedWrapper. simpl.
  destruct (truthy (onLayout c)), (truthy (ref c)), (truthy (key c));
    repeat case_decide; subst; simplify_map_eq; done.
Qed.

(** C1, as amended.  For a component whose style is
    [{transform: t, backgroundColor: 'red', flex: 1}] the wrapper carries:
    a fast-driver bucket with exactly [transform] and [flex]; a
    general-driver bucket with [backgroundColor] and [flex] but not
    [transform]; a static bucket with none of the three keys. *)
Theorem sample_buckets (t : value) (c : component) (ns s nc ch : value) :
  prop (props c) "style" = sampleStyle t ->
  exists (oT mT iT : value) (oP mP iP : gmap string value),
    createAnimatedWrapper c ns s nc ch
    = createElement oT oP [createElement mT mP [createElement iT iP []]]
    /\ oP !! "style"
       = Some (VArr [VObj {[ "transform" := t; "flex" := VNum 1 ]}; ns])
    /\ mP !! "style"
       = Some (VArr [VObj {[ "backgroundColor" := VStr "red";
                             "flex" := VNum 1 ]};
                     s; VObj {[ "overflow" := VStr "hidden" ]}])
    /\ iP !! "style" = Some (VObj ∅).
Proof.
  intros Hstyle.
  pose proof (outer_props_lookup c ns s nc ch "style") as Houter.
  revert Houter. unfold createAnimatedWrapper. rewrite Hstyle. simpl.
  intros Houter. eexists _, _, _, _, _, _. split; [reflexivity|].
  split; [|split].
  - rewrite Houter. vm_compute. reflexivity.
  - rewrite lookup_singleton_eq. vm_compute. reflexivity.
  - rewrite lookup_insert_eq. vm_compute. reflexivity.
Qed.

(** C6. The general-driver container has the single prop [style], the
    three-element array of the general bucket, the caller's styles and
    [{overflow: 'hidden'}]; the last entry wins, so flattening that array
    gives [overflow: 'hidden'] whatever the first two entries hold. *)
Theorem animated_element_style (c : component) (ns s nc ch : value) :
  let clipped :=
    VArr [getAnimatableStyles (prop (props c) "style"); s;
          VObj {[ "overflow" := VStr "hidden" ]}] in
  (exists inner : element,
      elementChildren (createAnimatedWrapper c ns s nc ch)
      = [createElement (or_else ch createAnimated)
           {[ "style" := clipped ]} [inner]])
  /\ (exists flat : gmap string value,
         getFilteredStyle clipped (fun _ => true) = VObj flat
         /\ flat !! "overflow" = Some (VStr "hidden")).
Proof.
  intros clipped. split; [by eexists|].
  unfold clipped.
  apply (getFilteredStyle_last
           [getAnimatableStyles (prop (props c) "style"); s]
           {[ "overflow" := VStr "hidden" ]});
    [reflexivity | reflexivity | discriminate | apply lookup_singleton_eq].
Qed.

(** C7. The innermost element is the original component re-created: same
    type, no child argument, [style] set to the static bucket, and apart
    from [style] exactly the props of the original. *)
Theorem inner_element_frame (c : component) (ns s nc ch : value) :
  exists (oT mT : value) (oP mP : gmap string value) (inner : element),
    createAnimatedWrapper c ns s nc ch
    = createElement oT oP [createElement mT mP [inner]]
    /\ elementType inner = type c
    /\ elementChildren inner = []
    /\ elementProps inner !! "style"
       = Some (getComponentStyles (prop (props c) "style"))
    /\ delete "style" (elementProps inner) = delete "style" (props c).
Proof.
  eexists _, _, _, _, _. split; [reflexivity|]. simpl.
  split; [done|]. split; [done|]. split.
  - apply lookup_insert_eq.
  - apply delete_insert_eq.
Qed.

(** C8, as amended.  The props of the outer container are: [style], the
    two-element array of the fast-driver bucket and the caller's fast
    styles; [collapsable: false]; and [key], [ref], [onLayout] of the
    component, each forwarded iff its value is truthy.  Nothing else is set;
    in particular an absent field leaves no key behind. *)
Theorem outer_props_forwarding (c : component) (ns s nc ch : value) :
  let P := elementProps (createAnimatedWrapper c ns s nc ch) in
  P !! "style"
  = Some (VArr [getNativeAnimatableStyles (prop (props c) "style"); ns])
  /\ P !! "collapsable" = Some (VBool false)
  /\ P !! "key" = (if truthy (key c) then Some (key c) else None)
  /\ P !! "ref" = (if truthy (ref c) then Some (ref c) else None)
  /\ P !! "onLayout"
     = (if truthy (onLayout c) then Some (onLayout c) else None)
  /\ dom P ⊆ ({[ "style"; "collapsable"; "key"; "ref"; "onLayout" ]}
              : gset string)
  /\ (absent (key c) -> P !! "key" = None)
  /\ (absent (ref c) -> P !! "ref" = None)
  /\ (absent (onLayout c) -> P !! "onLayout" = None).
Proof.
  intros P. unfold P.
  split_and!; try (rewrite outer_props_lookup; reflexivity).
  - intros k [v Hv]%elem_of_dom. rewrite outer_props_lookup in Hv.
    repeat case_decide; subst; set_solver.
  - intros [H|H]; rewrite outer_props_lookup; simpl; by rewrite H.
  - intros [H|H]; rewrite outer_props_lookup; simpl; by rewrite H.
  - intros [H|H]; rewrite outer_props_lookup; simpl; by rewrite H.
Qed.

(** C9, as amended.  A key listed in [excludePropsForStyles] is never in
    the general-driver bucket; the list holds every transform property and
    the geometry properties it names, but not [width], [height] and [flex],
    which the general-driver bucket keeps. *)
Theorem general_bucket_exclusions :
  (forall styles : value,
      match getAnimatableStyles styles with
      | VObj b => forall k, k ∈ excludePropsForStyles -> b !! k = None
      | r => r = styles /\ instanceofObject styles = false
      end)
  /\ (forall k, k ∈ transformProps -> k ∈ excludePropsForStyles)
  /\ (forall (m : gmap string value) (k : string),
         k ∈ ["width"; "height"; "flex"] ->
         exists b : gmap string value,
           getAnimatableStyles (VObj m) = VObj b /\ b !! k = m !! k).
Proof.
  split; [|split].
  - intros styles. unfold getAnimatableStyles.
    pose proof (getFilteredStyle_shape styles
      (fun key => Z.eqb (indexOf excludePropsForStyles key) (-1))) as Hs.
    destruct (getFilteredStyle styles _); try done.
    intros k Hk. apply Hs. unfold selects.
    destruct (Z.eqb (indexOf excludePropsForStyles k) (-1)) eqn:E;
      [|by rewrite andb_false_r].
    by apply indexOf_missing_iff in E.
  - intros k Hk. unfold transformProps in Hk.
    repeat (apply elem_of_cons in Hk as [->|Hk]; [table_lookup|]).
    by apply elem_of_nil in Hk.
  - intros m k Hk. unfold getAnimatableStyles.
    rewrite getFilteredStyle_object. eexists. split; [done|].
    assert (Hsel : selects
      (fun key => Z.eqb (indexOf excludePropsForStyles key) (-1)) k = true
      /\ k <> "__proto__").
    { repeat (apply elem_of_cons in Hk as [->|Hk];
              [split; [reflexivity | discriminate]|]).
      by apply elem_of_nil in Hk. }
    destruct Hsel as [Hsel Hne]. rewrite lookup_delete_ne by congruence.
    apply andb_true_iff in Hsel as [Hnum%negb_true_iff Hp].
    destruct (m !! k) as [v|] eqn:E.
    + apply contribution_lookup. by repeat split.
    + apply eq_None_not_Some. intros [v Hv].
      apply contribution_lookup in Hv. destruct Hv as (_ & Hv & _).
      change (m !! k = Some v) in Hv. congruence.
Qed.

(** C10. The three forwarding tests are truthiness tests: a [key], [ref]
    or [onLayout] that is present but falsy is not forwarded, and the
    wrapper is the one built for a component without that field. *)
Theorem falsy_fields_not_forwarded (c : component) (ns s nc ch : value) :
  let wrap (c' : component) := createAnimatedWrapper c' ns s nc ch in
  (truthy (key c) = false ->
   elementProps (wrap c) !! "key" = None
   /\ wrap c
      = wrap (Component (type c) (props c) VUndefined (ref c) (onLayout c)))
  /\ (truthy (ref c) = false ->
      elementProps (wrap c) !! "ref" = None
      /\ wrap c
         = wrap (Component (type c) (props c) (key c) VUndefined (onLayout c)))
  /\ (truthy (onLayout c) = false ->
      elementProps (wrap c) !! "onLayout" = None
      /\ wrap c
         = wrap (Component (type c) (props c) (key c) (ref c) VUndefined)).
Proof.
  intros wrap. unfold wrap.
  repeat split; try (rewrite outer_props_lookup; simpl; by rewrite H);
    unfold createAnimatedWrapper; simpl; by rewrite H.
Qed.

(** * Further properties of [getFilteredStyle] *)

Lemma contribution_lookup_eq (p : string -> bool) (s : value) (k : string) :
  contribution p s !! k =
  if selects p k then (if truthy s then ownProps s !! k else None) else None.
Proof.
  destruct (contribution p s !! k) as [v|] eqn:E.
  - apply contribution_lookup in E. destruct E as (Ht & Hk & Hn & Hp).
    unfold selects. by rewrite Hn, Hp, Ht.
  - destruct (selects p k) eqn:Hs; [|done].
    destruct (truthy s) eqn:Ht; [|done].
    destruct (ownProps s !! k) as [v|] eqn:Hk; [|done].
    assert (contribution p s !! k = Some v) as Hc; [|congruence].
    apply contribution_lookup.
    apply andb_true_iff in Hs as [Hn%negb_true_iff Hp]. by repeat split.
Qed.

Lemma forEach_copyStyle_lookup (p : string -> bool) (l : list value)
  (o : object) (k : string) :
  k <> "__proto__" ->
  own (forEach l (copyStyle p) o) !! k =
  match (if selects p k then lastDefined l k else None) with
  | Some v => Some v
  | None => own o !! k
  end.
Proof.
  intros Hne. unfold forEach. revert o.
  induction l as [|s l IH]; intros o; simpl.
  - by destruct (selects p k).
  - rewrite IH, copyStyle_lookup, lookup_union, contribution_lookup_eq
      by done.
    destruct (selects p k); [|by rewrite (left_id_L None _)].
    destruct (lastDefined l k); [done|].
    destruct (truthy s); [|by rewrite (left_id_L None _)].
    destruct (ownProps s !! k); [by rewrite union_Some_l|].
    by rewrite (left_id_L None _).
Qed.

(** Whatever the predicate, the input is either handed back or its entries
    are folded into a new object. *)
Lemma getFilteredStyle_cases (styles : value) :
  (forall p, getFilteredStyle styles p = styles)
  \/ (forall p, getFilteredStyle styles p
                = VObj (own (forEach (styleEntries styles) (copyStyle p)
                               newObject))).
Proof.
  unfold getFilteredStyle, styleEntries.
  destruct (truthy styles) eqn:Ht; simpl; [|by left].
  destruct (instanceofObject styles) eqn:Hi; simpl.
  - rewrite Ht. simpl. by right.
  - destruct (truthy (StyleSheet_flatten styles)); simpl;
      [by right | by left].
Qed.

(** A bucket built from entries without [__proto__] has no such key. *)
Lemma protoFree_result (l : list value) (p : string -> bool) :
  Forall (fun s => ownProps s !! "__proto__" = None) l ->
  own (forEach l (copyStyle p) newObject) !! "__proto__" = None.
Proof.
  intros Hl. rewrite forEach_copyStyle_untouched by (by left). done.
Qed.

(** Filtering a bucket built from proto-free entries, key by key. *)
Lemma refilter_lookup (l : list value) (p q : string -> bool) (k : string) :
  Forall (fun s => ownProps s !! "__proto__" = None) l ->
  delete "__proto__"
    (contribution q (VObj (own (forEach l (copyStyle p) newObject)))) !! k
  = if selects p k && selects q k then lastDefined l k else None.
Proof.
  intros Hl. destruct (decide (k = "__proto__")) as [->|Hne].
  - rewrite lookup_delete_eq.
    assert (lastDefined l "__proto__" = None) as ->;
      [|by destruct (_ && _)].
    clear p q. induction l as [|s l IH]; [done|]. simpl.
    apply Forall_cons in Hl as [Hs Hl]. rewrite (IH Hl), Hs.
    by destruct (truthy s).
  - rewrite lookup_delete_ne by done.
    rewrite contribution_lookup_eq. simpl.
    rewrite forEach_copyStyle_lookup by done. simpl.
    rewrite lookup_empty.
    destruct (selects p k), (selects q k); simpl; try done;
      by destruct (lastDefined l k).
Qed.

Lemma fold_lookup (l : list value) (p : string -> bool) (k : string) :
  Forall (fun s => ownProps s !! "__proto__" = None) l ->
  own (forEach l (copyStyle p) newObject) !! k
  = if selects p k then lastDefined l k else None.
Proof.
  intros Hl. destruct (decide (k = "__proto__")) as [->|Hne].
  - rewrite protoFree_result by done.
    assert (lastDefined l "__proto__" = None) as ->;
      [|by destruct (selects _ _)].
    clear p. induction l as [|s l IH]; [done|]. simpl.
    apply Forall_cons in Hl as [Hs Hl]. rewrite (IH Hl), Hs.
    by destruct (truthy s).
  - rewrite forEach_copyStyle_lookup by done. simpl. rewrite lookup_empty.
    by destruct (if selects p k then _ else _).
Qed.

(** X1. The object built from a style array gives every selected key other
    than [__proto__] the value of the last truthy entry that defines it,
    unchanged, and has no other such key. *)
Theorem array_lookup (l : list value) (p : string -> bool) :
  exists r : gmap string value,
    getFilteredStyle (VArr l) p = VObj r
    /\ forall k : string,
        k <> "__proto__" ->
        r !! k = if negb (isNumber k) && p k then lastDefined l k else None.
Proof.
  unfold getFilteredStyle. simpl. eexists. split; [done|].
  intros k Hne. rewrite forEach_copyStyle_lookup by done.
  fold (selects p k). simpl.
  rewrite lookup_empty. by destruct (if selects p k then _ else _).
Qed.

(** X2. Flattening is compatible with concatenation: when no entry of [l2]
    has an own [__proto__] property, the object for [l1 ++ l2] is the object
    for [l2] laid over the object for [l1]; and an object that is not
    wrapped in an array is treated as the one-element array. *)
Theorem array_concat (l1 l2 : list value) (m : gmap string value)
  (p : string -> bool) :
  (protoFree (VArr l2) ->
   exists r1 r2 : gmap string value,
     getFilteredStyle (VArr l1) p = VObj r1
     /\ getFilteredStyle (VArr l2) p = VObj r2
     /\ getFilteredStyle (VArr (l1 ++ l2)) p = VObj (r2 ∪ r1))
  /\ getFilteredStyle (VObj m) p = getFilteredStyle (VArr [VObj m]) p.
Proof.
  split; [|done]. intros Hfree.
  change (Forall (fun s => ownProps s !! "__proto__" = None) l2) in Hfree.
  unfold getFilteredStyle. simpl. eexists _, _.
  split; [done|]. split; [done|]. f_equal.
  apply map_eq; intros k.
  unfold forEach. rewrite foldl_app. fold (forEach l1 (copyStyle p) newObject).
  fold (forEach l2 (copyStyle p) (forEach l1 (copyStyle p) newObject)).
  fold (forEach l2 (copyStyle p) newObject).
  rewrite lookup_union.
  destruct (decide (k = "__proto__")) as [->|Hne].
  - rewrite (forEach_copyStyle_untouched p l2 (forEach l1 _ _))
      by (by left).
    rewrite (forEach_copyStyle_untouched p l2 newObject) by (by left).
    simpl. by rewrite lookup_empty, (left_id_L None _).
  - rewrite (forEach_copyStyle_lookup p l2 (forEach l1 _ _)) by done.
    rewrite (forEach_copyStyle_lookup p l2 newObject) by done.
    destruct (if selects p k then _ else _); [by rewrite union_Some_l|].
    simpl. by rewrite lookup_empty, (left_id_L None _).
Qed.


(** X4. For a style none of whose entries has an own [__proto__] property,
    filtering twice is filtering once with both predicates, so the order of
    two filters does not matter. *)
Theorem filter_compose (styles : value) (p q : string -> bool) :
  protoFree styles ->
  getFilteredStyle (getFilteredStyle styles p) q
  = getFilteredStyle styles (fun k => p k && q k)
  /\ getFilteredStyle (getFilteredStyle styles p) q
     = getFilteredStyle (getFilteredStyle styles q) p.
Proof.
  intros Hfree.
  assert (H : forall p q,
    getFilteredStyle (getFilteredStyle styles p) q
    = getFilteredStyle styles (fun k => p k && q k)).
  { clear p q. intros p q.
    destruct (getFilteredStyle_cases styles) as [Hback | Hl].
    - by rewrite (Hback p), (Hback q), (Hback (fun k => p k && q k)).
    - rewrite (Hl p), (Hl (fun k => p k && q k)), getFilteredStyle_object.
      f_equal. apply map_eq; intros k.
      rewrite refilter_lookup, fold_lookup by done. unfold selects.
      by destruct (isNumber k), (p k), (q k). }
  split; [apply H|]. rewrite !H.
  destruct (getFilteredStyle_cases styles) as [Hback | Hl].
  - by rewrite !Hback.
  - rewrite !Hl. f_equal. apply map_eq; intros k.
    rewrite !fold_lookup by done. unfold selects.
    by rewrite (andb_comm (p k) (q k)).
Qed.

(** X5. For a style none of whose entries has an own [__proto__] property,
    filtering is idempotent: a bucket filtered again with the same predicate
    is unchanged. *)
Theorem filter_idempotent (styles : value) (p : string -> bool) :
  protoFree styles ->
  getFilteredStyle (getFilteredStyle styles p) p = getFilteredStyle styles p.
Proof.
  intros Hfree.
  destruct (getFilteredStyle_cases styles) as [Hback | Hl].
  - by rewrite !Hback.
  - rewrite Hl, getFilteredStyle_object. f_equal.
    apply map_eq; intros k.
    rewrite refilter_lookup, fold_lookup by done.
    by destruct (selects p k).
Qed.

(** X12. For a style none of whose entries has an own [__proto__] property,
    classifying it gives the same bucket as flattening it first (filtering
    with a predicate that accepts every key) and classifying the flattened
    object. *)
Theorem classify_after_flatten (styles : value) (p : string -> bool) :
  protoFree styles ->
  getFilteredStyle (getFilteredStyle styles (fun _ => true)) p
  = getFilteredStyle styles p.
Proof.
  intros Hfree.
  destruct (getFilteredStyle_cases styles) as [Hback | Hl].
  - by rewrite !Hback.
  - rewrite !Hl, getFilteredStyle_object. f_equal.
    apply map_eq; intros k.
    rewrite refilter_lookup, fold_lookup by done. unfold selects.
    by destruct (isNumber k), (p k).
Qed.

(** * Further properties of the tables and of [isNumber] *)

Lemma object_bucket_lookup (m : gmap string value) (p : string -> bool)
  (k : string) (v : value) :
  m !! k = Some v -> isNumber k = false ->
  contribution p (VObj m) !! k = if p k then Some v else None.
Proof.
  intros Hk Hn. rewrite contribution_lookup_eq. unfold selects.
  rewrite Hn. simpl. by rewrite Hk.
Qed.

Lemma indexOf_excluded (xs : list string) (k : string) :
  Z.eqb (indexOf xs k) (-1) = false -> k ∈ xs.
Proof.
  intros H. destruct (decide (k ∈ xs)) as [Hin|Hout]; [done|].
  apply indexOf_missing_iff in Hout. congruence.
Qed.

(** Closes a goal about one concrete key: a table test that computes to
    the opposite of an assumption, or a membership in a short list. *)
Ltac concrete_key :=
  first [ match goal with
          | H : _ = true |- _ => vm_compute in H; discriminate H
          | H : _ = false |- _ => vm_compute in H; discriminate H
          end
        | repeat constructor ].

(** X6. Of the non-numeric keys of a style object, the only ones that reach
    none of the three buckets are [transformMatrix], [decomposedMatrix],
    [scaleX], [scaleY], [rotation], [translateX], [translateY] and
    [__proto__]; every other key is kept in at least one bucket. *)
Theorem dropped_keys (m : gmap string value) (k : string) (v : value) :
  m !! k = Some v -> isNumber k = false ->
  exists native general static : gmap string value,
    getNativeAnimatableStyles (VObj m) = VObj native
    /\ getAnimatableStyles (VObj m) = VObj general
    /\ getComponentStyles (VObj m) = VObj static
    /\ ((native !! k = None /\ general !! k = None /\ static !! k = None)
        <-> k ∈ droppedProps \/ k = "__proto__").
Proof.
  intros Hk Hnum.
  unfold getNativeAnimatableStyles, getAnimatableStyles, getComponentStyles.
  rewrite !getFilteredStyle_object.
  eexists _, _, _. split; [done|]. split; [done|]. split; [done|].
  destruct (decide (k = "__proto__")) as [->|Hne].
  { rewrite !lookup_delete_eq. split; [by right | done]. }
  rewrite !lookup_delete_ne by done.
  rewrite !(object_bucket_lookup m _ k v Hk Hnum).
  cut ((((if Z.gtb (indexOf includePropsForNativeStyles k) (-1)
          then Some v else None) = None
         /\ (if Z.eqb (indexOf excludePropsForStyles k) (-1)
             then Some v else None) = None
         /\ (if Z.eqb (indexOf excludePropsForComponent k) (-1)
             then Some v else None) = None))
       <-> k ∈ droppedProps).
  { intros ->. split; [by left | by intros [?|?]]. }
  clear Hne.
  destruct (Z.gtb (indexOf includePropsForNativeStyles k) (-1)) eqn:Hn;
  destruct (Z.eqb (indexOf excludePropsForStyles k) (-1)) eqn:Hs;
  destruct (Z.eqb (indexOf excludePropsForComponent k) (-1)) eqn:Hc;
    (split; [intros (? & ? & ?); try discriminate | intros Hd]).
  all: try (exfalso; unfold droppedProps in Hd;
            repeat (apply elem_of_cons in Hd as [->|Hd]; [concrete_key|]);
            by apply elem_of_nil in Hd).
  - apply indexOf_excluded in Hs. unfold excludePropsForStyles in Hs.
    repeat (apply elem_of_cons in Hs as [->|Hs]; [concrete_key|]).
    by apply elem_of_nil in Hs.
  - done.
Qed.

(** X7. A non-numeric key of a style object is sent to both the fast-driver
    and the general-driver bucket exactly when it is [width], [height],
    [flexDirection], [flexWrap] or [flex]; it is both in the fast-driver
    bucket and left on the component exactly when it is [width], [height]
    or [flexDirection]. *)
Theorem fast_bucket_overlap (m : gmap string value) (k : string) (v : value) :
  m !! k = Some v -> isNumber k = false ->
  exists native general static : gmap string value,
    getNativeAnimatableStyles (VObj m) = VObj native
    /\ getAnimatableStyles (VObj m) = VObj general
    /\ getComponentStyles (VObj m) = VObj static
    /\ ((native !! k = Some v /\ general !! k = Some v)
        <-> k ∈ ["width"; "height"; "flexDirection"; "flexWrap"; "flex"])
    /\ ((native !! k = Some v /\ static !! k = Some v)
        <-> k ∈ ["width"; "height"; "flexDirection"]).
Proof.
  intros Hk Hnum.
  unfold getNativeAnimatableStyles, getAnimatableStyles, getComponentStyles.
  rewrite !getFilteredStyle_object.
  eexists _, _, _. split; [done|]. split; [done|]. split; [done|].
  destruct (decide (k = "__proto__")) as [->|Hne].
  { rewrite !lookup_delete_eq.
    split; (split; [by intros [? _] | intros Hd; exfalso]);
      repeat (apply elem_of_cons in Hd as [Hd|Hd]; [discriminate Hd|]);
      by apply elem_of_nil in Hd. }
  rewrite !lookup_delete_ne by done.
  rewrite !(object_bucket_lookup m _ k v Hk Hnum). clear Hne.
  destruct (Z.gtb (indexOf includePropsForNativeStyles k) (-1)) eqn:Hn;
  destruct (Z.eqb (indexOf excludePropsForStyles k) (-1)) eqn:Hs;
  destruct (Z.eqb (indexOf excludePropsForComponent k) (-1)) eqn:Hc.
  all: split;
    (split; [intros (? & ?); try discriminate | intros Hd]).
  all: try (exfalso;
            repeat (apply elem_of_cons in Hd as [->|Hd]; [concrete_key|]);
            by apply elem_of_nil in Hd).
  all: try done.
  all: apply indexOf_found_iff in Hn;
    unfold includePropsForNativeStyles in Hn;
    repeat (apply elem_of_cons in Hn as [->|Hn]; [concrete_key|]);
    by apply elem_of_nil in Hn.
Qed.

Lemma letter_facts (c : ascii) :
  isLetter c = true ->
  isStrWhiteSpaceChar c = false /\ isSign c = false
  /\ isDecimalDigit c = false
  /\ Ascii.eqb c "." = false /\ Ascii.eqb c "0" = false.
Proof.
  destruct c as [[] [] [] [] [] [] [] []];
    vm_compute; intros; try discriminate; repeat split.
Qed.

Lemma trimEnd_letters (s : string) :
  allChars isLetter s = true -> trimEnd s = s.
Proof.
  induction s as [|c r IH]; simpl; [done|].
  intros [Hc Hr]%andb_true_iff. rewrite (IH Hr).
  destruct (letter_facts c Hc) as (-> & _). by destruct r.
Qed.

(** X8. A key made of ASCII letters only is never taken for a number, with
    the single exception of the word [Infinity]; in particular no key of the
    three tables is numeric. *)
Theorem letter_keys_not_numeric :
  (forall s : string,
      allChars isLetter s = true -> isNumber s = String.eqb s "Infinity")
  /\ (forall k : string,
         k ∈ (includePropsForNativeStyles ++ excludePropsForStyles
                ++ excludePropsForComponent)%list ->
         isNumber k = false).
Proof.
  assert (H : forall s : string,
             allChars isLetter s = true ->
             isNumber s = String.eqb s "Infinity").
  { intros s Hall. destruct s as [|c r]; [done|].
    pose proof Hall as [Hc Hr]%andb_true_iff.
    destruct (letter_facts c Hc) as (Hws & Hsg & Hdg & Hdot & Hzero).
    unfold isNumber, parseFloat_isNaN, minus0_isNaN.
    assert (Ht : trimStart (String c r) = String c r)
      by (simpl; by rewrite Hws).
    rewrite Ht, (trimEnd_letters _ Hall).
    assert (Hs : skipSign (String c r) = String c r)
      by (simpl; by rewrite Hsg).
    unfold isStrDecimalLiteral. rewrite Hs.
    assert (Hnd : isNonDecimalIntegerLiteral (String c r) = false).
    { revert Hzero. clear. destruct c as [[] [] [] [] [] [] [] []]; done. }
    assert (Hsk : skipDigits (String c r) = String c r)
      by (simpl; by rewrite Hdg).
    assert (Hu : isStrUnsignedDecimalLiteral (String c r)
                 = String.eqb (String c r) "Infinity").
    { unfold isStrUnsignedDecimalLiteral. rewrite Hsk.
      destruct (String.eqb (String c r) "Infinity"); [done|].
      revert Hdot Hdg. clear. simpl.
      destruct c as [[] [] [] [] [] [] [] []]; simpl; try done;
        by intros _ ->. }
    rewrite Hnd, Hu, orb_false_r.
    assert (Hne : String.eqb (String c r) EmptyString = false) by done.
    rewrite Hne.
    destruct (String.eqb_spec (String c r) "Infinity") as [->|_];
      [done | by rewrite andb_false_r]. }
  split; [exact H|].
  intros k Hk. rewrite H.
  - unfold includePropsForNativeStyles, excludePropsForStyles,
      excludePropsForComponent in Hk. simpl in Hk.
    repeat (apply elem_of_cons in Hk as [->|Hk]; [reflexivity|]).
    by apply elem_of_nil in Hk.
  - unfold includePropsForNativeStyles, excludePropsForStyles,
      excludePropsForComponent in Hk. simpl in Hk.
    repeat (apply elem_of_cons in Hk as [->|Hk]; [reflexivity|]).
    by apply elem_of_nil in Hk.
Qed.

(** *** What [isNumber] means *)

Lemma trimStart_head (s : string) (c : ascii) (r : string) :
  trimStart s = String c r -> isStrWhiteSpaceChar c = false.
Proof.
  induction s as [|a s IH]; simpl; [discriminate|].
  destruct (isStrWhiteSpaceChar a) eqn:Ha; [exact IH|].
  intros [= <- _]. exact Ha.
Qed.

Lemma trimEnd_head (c : ascii) (r : string) :
  isStrWhiteSpaceChar c = false ->
  String.eqb (trimEnd (String c r)) EmptyString = false.
Proof. intros Hc. simpl. rewrite Hc. by destruct (trimEnd r). Qed.

(** Trimming at the end only removes a suffix. *)
Lemma trimEnd_suffix (u : string) : exists w : string, u = trimEnd u ++ w.
Proof.
  induction u as [|c r [w IH]]; [by exists EmptyString|]. simpl.
  destruct (trimEnd r) as [|a r0] eqn:Hr.
  - destruct (isStrWhiteSpaceChar c).
    + by exists (String c r).
    + exists w. simpl in IH. by rewrite IH.
  - exists w. simpl. by rewrite IH at 1.
Qed.

(** The test [parseFloat] passes: some prefix is a decimal literal. *)
Lemma parseFloat_isNaN_unfold (s : string) :
  parseFloat_isNaN s
  = negb (String.prefix "Infinity" (skipSign (trimStart s))
          || startsWithDigit (skipSign (trimStart s))
          || match skipSign (trimStart s) with
             | String "."%char r => startsWithDigit r
             | _ => false
             end).
Proof. reflexivity. Qed.

Lemma unsigned_literal_prefix (x w : string) :
  isStrUnsignedDecimalLiteral x = true ->
  (String.prefix "Infinity" (x ++ w)
   || startsWithDigit (x ++ w)
   || match x ++ w with
      | String "."%char r => startsWithDigit r
      | _ => false
      end) = true.
Proof.
  unfold isStrUnsignedDecimalLiteral.
  destruct (String.eqb_spec x "Infinity") as [->|_].
  - intros _. simpl. by destruct w.
  - destruct x as [|c r]; [discriminate|].
    destruct (isDecimalDigit c) eqn:Hc.
    + intros _. simpl. rewrite Hc. by rewrite orb_true_r.
    + assert (Hsk : skipDigits (String c r) = String c r)
        by (simpl; by rewrite Hc).
      rewrite Hsk. simpl startsWithDigit. rewrite Hc. simpl.
      destruct (Ascii.eqb_spec c ".") as [->|Hne].
      * intros [Hr _]%andb_true_iff.
        destruct r as [|d r']; [discriminate|]. simpl in Hr. simpl.
        rewrite Hr. by rewrite ?orb_true_r.
      * revert Hne. clear.
        destruct c as [[] [] [] [] [] [] [] []];
          intros Hne; try discriminate; by destruct Hne.
Qed.

Lemma decimal_literal_prefix (t w : string) :
  isStrDecimalLiteral t = true ->
  (String.prefix "Infinity" (skipSign (t ++ w))
   || startsWithDigit (skipSign (t ++ w))
   || match skipSign (t ++ w) with
      | String "."%char r => startsWithDigit r
      | _ => false
      end) = true.
Proof.
  unfold isStrDecimalLiteral. intros H.
  assert (Hs : skipSign (t ++ w) = skipSign t ++ w).
  { destruct t as [|c r]; [discriminate|]. simpl.
    by destruct (isSign c). }
  rewrite Hs. by apply unsigned_literal_prefix.
Qed.

Lemma non_decimal_literal_prefix (t w : string) :
  isNonDecimalIntegerLiteral t = true ->
  startsWithDigit (skipSign (t ++ w)) = true.
Proof.
  destruct t as [|c [|p r]]; try discriminate;
    destruct c as [[] [] [] [] [] [] [] []]; try discriminate.
  by intros _.
Qed.

(** X9. [isNumber(n)] holds exactly when [n - 0] is not NaN and [n] is not
    blank: the [parseFloat] test only serves to reject the empty and the
    all-whitespace strings, which convert to 0. *)
Theorem isNumber_meaning (n : string) :
  isNumber n = negb (minus0_isNaN n) && nonEmpty (trimStart n).
Proof.
  unfold isNumber. rewrite parseFloat_isNaN_unfold. unfold minus0_isNaN.
  destruct (trimStart n) as [|c r] eqn:Hu; [done|].
  pose proof (trimStart_head _ _ _ Hu) as Hc.
  rewrite (trimEnd_head c r Hc), andb_true_r, negb_involutive.
  destruct (trimEnd_suffix (String c r)) as [w Hw].
  destruct (isStrDecimalLiteral (trimEnd (String c r))) eqn:Hd.
  - rewrite Hw at 1 2 3.
    by rewrite (decimal_literal_prefix _ w Hd).
  - destruct (isNonDecimalIntegerLiteral (trimEnd (String c r))) eqn:Hn;
      [|by rewrite andb_false_r].
    rewrite Hw at 2.
    rewrite (non_decimal_literal_prefix _ w Hn).
    by rewrite orb_true_r.
Qed.

(** * Further properties of the wrapper *)

Lemma getFilteredStyle_falsy (styles : value) (p : string -> bool) :
  truthy styles = false -> getFilteredStyle styles p = styles.
Proof. intros H. unfold getFilteredStyle. by rewrite H. Qed.

(** X10. A component whose style is missing or falsy is wrapped all the
    same: the falsy value itself stands where each of the three buckets
    would, and the inner element gets it as an explicit [style] prop, so a
    component without style prop gains [style: undefined]. *)
Theorem falsy_style_passes_through (c : component) (ns s nc ch : value) :
  truthy (prop (props c) "style") = false ->
  (exists (oT mT : value) (oP : gmap string value),
      createAnimatedWrapper c ns s nc ch
      = createElement oT oP
          [createElement mT
             {[ "style" := VArr [prop (props c) "style"; s;
                                 VObj {[ "overflow" := VStr "hidden" ]}] ]}
             [createElement (type c)
                (<["style" := prop (props c) "style"]> (props c)) []]]
      /\ oP !! "style" = Some (VArr [prop (props c) "style"; ns]))
  /\ (props c !! "style" = None ->
      exists (oT mT : value) (oP mP : gmap string value),
        createAnimatedWrapper c ns s nc ch
        = createElement oT oP
            [createElement mT mP
               [createElement (type c)
                  (<["style" := VUndefined]> (props c)) []]]).
Proof.
  intros Hst.
  pose proof (outer_props_lookup c ns s nc ch "style") as Houter.
  revert Houter. unfold createAnimatedWrapper.
  unfold getNativeAnimatableStyles, getAnimatableStyles, getComponentStyles.
  rewrite !(getFilteredStyle_falsy _ _ Hst). simpl. intros Houter. split.
  - eexists _, _, _. split; [reflexivity | exact Houter].
  - intros Hnone. unfold prop. rewrite Hnone. simpl. by eexists _, _, _, _.
Qed.

(** X11. A style given as a registered id (or any other truthy primitive)
    is classified like what [StyleSheet.flatten] resolves it to, whenever
    that is an object or an array. *)
Theorem style_id_resolved (styles : value) (p : string -> bool) :
  truthy styles = true -> instanceofObject styles = false ->
  instanceofObject (StyleSheet_flatten styles) = true ->
  getFilteredStyle styles p = getFilteredStyle (StyleSheet_flatten styles) p.
Proof.
  intros Ht Hi Hf.
  assert (Htf : truthy (StyleSheet_flatten styles) = true)
    by (by destruct (StyleSheet_flatten styles)).
  unfold getFilteredStyle at 1.
  rewrite Ht, Hi. simpl. rewrite Htf. simpl.
  unfold getFilteredStyle. by rewrite Htf, Hf; simpl; rewrite Htf.
Qed.

End Properties.

(** * The concrete instance: examples of the theorems *)

Section Samples.

(** Every statement of this section is about the instance [sheet]. *)
#[local] Existing Instance sheet.

(** C2 at the key [flex] of the sample style. *)
Lemma bucket_membership_witness :
  sampleMap !! "flex" = Some (VNum 1) /\ isNumber "flex" = false
  /\ "flex" <> "__proto__"
  /\ exists native general static : gmap string value,
      getNativeAnimatableStyles (VObj sampleMap) = VObj native
      /\ getAnimatableStyles (VObj sampleMap) = VObj general
      /\ getComponentStyles (VObj sampleMap) = VObj static
      /\ (is_Some (native !! "flex") <-> "flex" ∈ includePropsForNativeStyles)
      /\ (is_Some (general !! "flex") <-> "flex" ∉ excludePropsForStyles)
      /\ (is_Some (static !! "flex") <-> "flex" ∉ excludePropsForComponent)
      /\ native ⊆ sampleMap /\ general ⊆ sampleMap /\ static ⊆ sampleMap.
Proof.
  assert (Hne : "flex" <> "__proto__") by discriminate.
  split; [reflexivity|]. split; [reflexivity|]. split; [exact Hne|].
  exact (proj1 (bucket_membership (RN := sheet)) sampleMap "flex" (VNum 1)
           eq_refl eq_refl Hne).
Defined.

(** C3 at [[redStyle, blueStyle]]: [color] comes from the second, [width]
    is kept from the first; [null] and [{}] are the skipped entries. *)
Lemma flatten_last_write_wins_witness :
  "color" <> "__proto__" /\ "width" <> "__proto__"
  /\ isNumber "color" = false /\ anyKey "color" = true
  /\ blueStyle !! "color" = Some (VStr "blue")
  /\ (exists r : gmap string value,
         getFilteredStyle (VArr [VObj redStyle; VObj blueStyle]) anyKey
         = VObj r
         /\ r !! "color" = Some (VStr "blue")
         /\ r !! "width" = Some (VNum 1))
  /\ (exists r : gmap string value,
         getFilteredStyle (VArr ([VObj redStyle] ++ [VObj blueStyle])) anyKey
         = VObj r
         /\ r !! "color" = Some (VStr "blue"))
  /\ getFilteredStyle (VArr [VObj redStyle; VNull; VObj blueStyle]) anyKey
     = getFilteredStyle (VArr [VObj redStyle; VObj blueStyle]) anyKey
  /\ getFilteredStyle (VArr [VObj redStyle; VObj ∅; VObj blueStyle]) anyKey
     = getFilteredStyle (VArr [VObj redStyle; VObj blueStyle]) anyKey.
Proof.
  assert (Hc : "color" <> "__proto__") by discriminate.
  assert (Hw : "width" <> "__proto__") by discriminate.
  destruct (flatten_last_write_wins (RN := sheet) anyKey redStyle blueStyle)
    as ((r & Hr & Hkeys) & Hlast & Hskip).
  split; [exact Hc|]. split; [exact Hw|].
  split; [reflexivity|]. split; [reflexivity|]. split; [reflexivity|].
  split.
  - exists r. split; [exact Hr|]. split.
    + rewrite (Hkeys "color" Hc). reflexivity.
    + rewrite (Hkeys "width" Hw). reflexivity.
  - split;
      [exact (Hlast [VObj redStyle] "color" (VStr "blue")
                eq_refl eq_refl Hc eq_refl)|].
    split.
    + exact (proj1 (Hskip VNull (or_introl eq_refl))).
    + exact (proj1 (Hskip (VObj ∅) (or_intror eq_refl))).
Defined.

(** C4 at a style array with the numeric key ["0"]. *)
Lemma numeric_keys_excluded_witness :
  isNumber "0" = true
  /\ exists b : gmap string value,
      getFilteredStyle numericKeyStyle anyKey = VObj b
      /\ b !! "0" = None.
Proof.
  split; [reflexivity|].
  pose proof (proj1 (numeric_keys_excluded (RN := sheet) numericKeyStyle)
                anyKey) as H.
  cbv beta zeta in H.
  destruct (getFilteredStyle numericKeyStyle anyKey) as
    [ | | | | | | |b]; try (destruct H as [_ H]; discriminate H).
  exists b. split; [reflexivity|]. apply H. reflexivity.
Defined.

(** C5: [null] and the unregistered style id 7 are handed back, the
    registered id 1 and the array [[null]] give an object. *)
Lemma getFilteredStyle_passthrough_witness :
  getFilteredStyle VNull anyKey = VNull
  /\ getFilteredStyle (VNum 7) anyKey = VNum 7
  /\ (exists b : gmap string value,
         getFilteredStyle (VNum 1) anyKey = VObj b)
  /\ (exists b : gmap string value,
         getFilteredStyle (VArr [VNull]) anyKey = VObj b).
Proof.
  split; [|split; [|split]].
  - exact (proj1 (getFilteredStyle_passthrough (RN := sheet) VNull _)
             eq_refl).
  - exact (proj1 (proj2 (getFilteredStyle_passthrough (RN := sheet)
                           (VNum 7) _))
             eq_refl eq_refl eq_refl).
  - exact (proj1 (proj2 (proj2 (getFilteredStyle_passthrough (RN := sheet)
                                  (VNum 1) _)))
             eq_refl (or_intror eq_refl)).
  - exact (proj1 (proj2 (proj2 (getFilteredStyle_passthrough (RN := sheet)
                                  (VArr [VNull]) _)))
             eq_refl (or_introl eq_refl)).
Defined.

(** C1 at the sample component. *)
Lemma sample_buckets_witness :
  prop (props sampleComponent) "style" = sampleStyle rotate90
  /\ exists (oT mT iT : value) (oP mP iP : gmap string value),
      wrapSample sampleComponent
      = createElement oT oP [createElement mT mP [createElement iT iP []]]
      /\ oP !! "style"
         = Some (VArr [VObj {[ "transform" := rotate90; "flex" := VNum 1 ]};
                       VUndefined])
      /\ mP !! "style"
         = Some (VArr [VObj {[ "backgroundColor" := VStr "red";
                               "flex" := VNum 1 ]};
                       VUndefined; VObj {[ "overflow" := VStr "hidden" ]}])
      /\ iP !! "style" = Some (VObj ∅).
Proof.
  split; [reflexivity|].
  apply (sample_buckets (RN := sheet) rotate90 sampleComponent).
  reflexivity.
Defined.

(** C8 at the sample component, which has neither key, ref nor onLayout. *)
Lemma outer_props_forwarding_witness :
  absent (key sampleComponent) /\ absent (ref sampleComponent)
  /\ absent (onLayout sampleComponent)
  /\ elementProps (wrapSample sampleComponent) !! "key" = None
  /\ elementProps (wrapSample sampleComponent) !! "ref" = None
  /\ elementProps (wrapSample sampleComponent) !! "onLayout" = None.
Proof.
  assert (Hk : absent (key sampleComponent)) by (right; reflexivity).
  assert (Hr : absent (ref sampleComponent)) by (right; reflexivity).
  assert (Ho : absent (onLayout sampleComponent)) by (left; reflexivity).
  destruct (outer_props_forwarding (RN := sheet)
              sampleComponent VUndefined VUndefined VUndefined VUndefined)
    as (_ & _ & _ & _ & _ & _ & Fk & Fr & Fo).
  split; [exact Hk|]. split; [exact Hr|]. split; [exact Ho|].
  split; [exact (Fk Hk)|]. split; [exact (Fr Hr) | exact (Fo Ho)].
Defined.

(** C9 at a style with [translateX] and [width]. *)
Lemma general_bucket_exclusions_witness :
  ("translateX" ∈ excludePropsForStyles)
  /\ ("translateX" ∈ transformProps)
  /\ ("width" ∈ ["width"; "height"; "flex"])
  /\ exists b : gmap string value,
      getAnimatableStyles (VObj translatedStyle) = VObj b
      /\ b !! "translateX" = None
      /\ b !! "width" = Some (VNum 100).
Proof.
  assert (Ht : "translateX" ∈ transformProps)
    by (do 6 apply list_elem_of_further; apply list_elem_of_here).
  assert (Hw : "width" ∈ ["width"; "height"; "flex"])
    by apply list_elem_of_here.
  destruct (general_bucket_exclusions (RN := sheet)) as (Hex & Htr & Hkeep).
  pose proof (Htr "translateX" Ht) as Hin.
  destruct (Hkeep translatedStyle "width" Hw) as (b & Hb & Hwidth).
  specialize (Hex (VObj translatedStyle)). rewrite Hb in Hex.
  split; [exact Hin|]. split; [exact Ht|]. split; [exact Hw|].
  exists b. split; [exact Hb|]. split; [exact (Hex "translateX" Hin)|].
  rewrite Hwidth. reflexivity.
Defined.

(** C10 at the component whose key, ref and onLayout are all falsy. *)
Lemma falsy_fields_not_forwarded_witness :
  truthy (key falsyKeyComponent) = false
  /\ truthy (ref falsyKeyComponent) = false
  /\ truthy (onLayout falsyKeyComponent) = false
  /\ elementProps (wrapSample falsyKeyComponent) !! "key" = None
  /\ elementProps (wrapSample falsyKeyComponent) !! "ref" = None
  /\ elementProps (wrapSample falsyKeyComponent) !! "onLayout" = None
  /\ wrapSample falsyKeyComponent
     = wrapSample (Component ViewType (props falsyKeyComponent)
                     VUndefined VNull (VNum 0)).
Proof.
  destruct (falsy_fields_not_forwarded (RN := sheet)
              falsyKeyComponent VUndefined VUndefined VUndefined VUndefined)
    as (Fk & Fr & Fo).
  destruct (Fk eq_refl) as [Hk Hsame].
  destruct (Fr eq_refl) as [Hr _]. destruct (Fo eq_refl) as [Ho _].
  do 3 (split; [reflexivity|]).
  split; [exact Hk|]. split; [exact Hr|]. split; [exact Ho | exact Hsame].
Defined.

(** ** Where the specification and the code part *)

(** C1.  The general-driver bucket of the sample component does contain
    [flex]: [excludePropsForStyles] leaves [flex] out (line 327). *)
Lemma sample_general_bucket_has_flex :
  exists (oT mT : value) (oP b : gmap string value) (rest : list value)
         (inner : element),
    wrapSample sampleComponent
    = createElement oT oP
        [createElement mT {[ "style" := VArr (VObj b :: rest) ]} [inner]]
    /\ b !! "flex" = Some (VNum 1).
Proof.
  exists (animatedType ViewType), (animatedType ViewType),
    (elementProps (wrapSample sampleComponent)),
    {[ "backgroundColor" := VStr "red"; "flex" := VNum 1 ]},
    [VUndefined; VObj {[ "overflow" := VStr "hidden" ]}],
    (createElement ViewType
       {[ "style" := VObj ∅; "testID" := VStr "box" ]} []).
  split; vm_compute; reflexivity.
Qed.

(** C5.  Flattening the empty array gives the empty mapping, yet the static
    bucket of [[]] is that new empty object and not the array handed in. *)
Lemma empty_array_not_handed_back :
  getFilteredStyle (VArr []) anyKey = VObj ∅
  /\ getComponentStyles (VArr []) <> VArr [].
Proof. split; [reflexivity | discriminate]. Qed.

(** C8.  A component whose key is the empty string has a key, but the
    outer container gets none. *)
Lemma empty_key_not_forwarded :
  key falsyKeyComponent = VStr EmptyString
  /\ ~ absent (key falsyKeyComponent)
  /\ elementProps (wrapSample falsyKeyComponent) !! "key" = None.
Proof.
  split; [reflexivity|]. split.
  - intros [H|H]; discriminate H.
  - unfold wrapSample. rewrite outer_props_lookup. reflexivity.
Qed.

(** C9.  [width], [height] and [flex] are geometry properties that the
    general-driver bucket keeps. *)
Lemma general_bucket_keeps_width_height_flex :
  exists b : gmap string value,
    getAnimatableStyles (VObj geometryStyle) = VObj b
    /\ b !! "width" = Some (VNum 100)
    /\ b !! "height" = Some (VNum 50)
    /\ b !! "flex" = Some (VNum 1).
Proof.
  exists geometryStyle. split; [vm_compute; reflexivity|].
  split; [|split]; reflexivity.
Qed.

(** C2.  A style object can have an own property named [__proto__]; the
    key is not numeric and is in neither exclusion list, yet the write
    [retVal[key] = s[key]] of line 126 then reaches the accessor inherited
    from [Object.prototype], so neither the general-driver nor the static
    bucket gets the key. *)
Lemma proto_key_in_no_bucket :
  protoStyle !! "__proto__" = Some (VNum 1)
  /\ isNumber "__proto__" = false
  /\ ("__proto__" ∉ excludePropsForStyles)
  /\ ("__proto__" ∉ excludePropsForComponent)
  /\ getAnimatableStyles (VObj protoStyle)
     = VObj {[ "color" := VStr "red" ]}
  /\ getComponentStyles (VObj protoStyle)
     = VObj {[ "color" := VStr "red" ]}.
Proof.
  split; [reflexivity|]. split; [reflexivity|].
  split; [apply indexOf_missing_iff; reflexivity|].
  split; [apply indexOf_missing_iff; reflexivity|].
  split; vm_compute; reflexivity.
Qed.

(** C3.  Both entries define the keys ["0"] and [__proto__], and the
    flattened object has neither: numeric keys are skipped (line 125) and
    the write of [__proto__] goes to the inherited accessor. *)
Lemma odd_keys_not_merged :
  is_Some (oddKeysA !! "0") /\ oddKeysB !! "0" = Some (VNum 2)
  /\ is_Some (oddKeysA !! "__proto__")
  /\ oddKeysB !! "__proto__" = Some (VNum 2)
  /\ getFilteredStyle (VArr [VObj oddKeysA; VObj oddKeysB]) anyKey = VObj ∅.
Proof.
  split; [by exists (VNum 1)|]. split; [reflexivity|].
  split; [by exists (VNum 1)|]. split; [reflexivity|].
  vm_compute. reflexivity.
Qed.

(** Once [__proto__: null] has cut the prototype chain, a later write of
    [__proto__] finds no accessor and makes an own property: the object for
    the two entries together is not the second laid over the first, which is
    why the laws of composition ask for entries without [__proto__]. *)
Lemma proto_chain_example :
  getFilteredStyle (VArr [VObj nullProtoStyle]) anyKey = VObj ∅
  /\ getFilteredStyle (VArr [VObj oddKeysB]) anyKey = VObj ∅
  /\ getFilteredStyle (VArr [VObj nullProtoStyle; VObj oddKeysB]) anyKey
     = VObj {[ "__proto__" := VNum 2 ]}.
Proof. repeat split; vm_compute; reflexivity. Qed.

(** ** Examples of the further properties *)


(** X1 at [[redStyle, blueStyle]] and the keys [color] and [width]. *)
Lemma array_lookup_witness :
  "color" <> "__proto__" /\ "width" <> "__proto__"
  /\ exists r : gmap string value,
      getFilteredStyle (VArr [VObj redStyle; VObj blueStyle]) anyKey = VObj r
      /\ r !! "color" = Some (VStr "blue")
      /\ r !! "width" = Some (VNum 1).
Proof.
  assert (Hc : "color" <> "__proto__") by discriminate.
  assert (Hw : "width" <> "__proto__") by discriminate.
  destruct (array_lookup (RN := sheet) [VObj redStyle; VObj blueStyle] anyKey)
    as (r & Hr & Hkeys).
  split; [exact Hc|]. split; [exact Hw|].
  exists r. split; [exact Hr|]. split.
  - rewrite (Hkeys "color" Hc). reflexivity.
  - rewrite (Hkeys "width" Hw). reflexivity.
Defined.

(** X2 at [[redStyle] ++ [blueStyle]]. *)
Lemma array_concat_witness :
  protoFree (VArr [VObj blueStyle])
  /\ exists r1 r2 : gmap string value,
      getFilteredStyle (VArr [VObj redStyle]) anyKey = VObj r1
      /\ getFilteredStyle (VArr [VObj blueStyle]) anyKey = VObj r2
      /\ getFilteredStyle (VArr ([VObj redStyle] ++ [VObj blueStyle])) anyKey
         = VObj (r2 ∪ r1).
Proof.
  assert (H : protoFree (VArr [VObj blueStyle])).
  { apply Forall_cons. split; [reflexivity | apply Forall_nil_2]. }
  split; [exact H|].
  exact (proj1 (array_concat (RN := sheet) [VObj redStyle] [VObj blueStyle]
                  ∅ anyKey) H).
Defined.

(** X4, X5 and X12 at the sample style. *)
Lemma filter_compose_witness :
  protoFree (sampleStyle rotate90)
  /\ getFilteredStyle (getFilteredStyle (sampleStyle rotate90) anyKey) anyKey
     = getFilteredStyle (sampleStyle rotate90)
         (fun k => anyKey k && anyKey k).
Proof.
  assert (H : protoFree (sampleStyle rotate90)).
  { apply Forall_cons. split; [reflexivity | apply Forall_nil_2]. }
  split; [exact H|].
  exact (proj1 (filter_compose (RN := sheet) (sampleStyle rotate90)
                  anyKey anyKey H)).
Defined.

Lemma filter_idempotent_witness :
  protoFree (sampleStyle rotate90)
  /\ getFilteredStyle (getFilteredStyle (sampleStyle rotate90) anyKey) anyKey
     = getFilteredStyle (sampleStyle rotate90) anyKey.
Proof.
  assert (H : protoFree (sampleStyle rotate90)).
  { apply Forall_cons. split; [reflexivity | apply Forall_nil_2]. }
  split; [exact H|].
  exact (filter_idempotent (RN := sheet) (sampleStyle rotate90) anyKey H).
Defined.

Lemma classify_after_flatten_witness :
  protoFree (sampleStyle rotate90)
  /\ getFilteredStyle
       (getFilteredStyle (sampleStyle rotate90) (fun _ => true)) anyKey
     = getFilteredStyle (sampleStyle rotate90) anyKey.
Proof.
  assert (H : protoFree (sampleStyle rotate90)).
  { apply Forall_cons. split; [reflexivity | apply Forall_nil_2]. }
  split; [exact H|].
  exact (classify_after_flatten (RN := sheet) (sampleStyle rotate90)
           anyKey H).
Defined.

(** X6 at [translateX], which no bucket keeps. *)
Lemma dropped_keys_witness :
  translatedStyle !! "translateX" = Some (VNum 5)
  /\ isNumber "translateX" = false
  /\ exists native general static : gmap string value,
      getNativeAnimatableStyles (VObj translatedStyle) = VObj native
      /\ getAnimatableStyles (VObj translatedStyle) = VObj general
      /\ getComponentStyles (VObj translatedStyle) = VObj static
      /\ ((native !! "translateX" = None /\ general !! "translateX" = None
           /\ static !! "translateX" = None)
          <-> "translateX" ∈ droppedProps \/ "translateX" = "__proto__").
Proof.
  split; [reflexivity|]. split; [reflexivity|].
  exact (dropped_keys (RN := sheet) translatedStyle "translateX" (VNum 5)
           eq_refl eq_refl).
Defined.

(** X7 at [flex], which both drivers get. *)
Lemma fast_bucket_overlap_witness :
  geometryStyle !! "flex" = Some (VNum 1) /\ isNumber "flex" = false
  /\ exists native general static : gmap string value,
      getNativeAnimatableStyles (VObj geometryStyle) = VObj native
      /\ getAnimatableStyles (VObj geometryStyle) = VObj general
      /\ getComponentStyles (VObj geometryStyle) = VObj static
      /\ ((native !! "flex" = Some (VNum 1)
           /\ general !! "flex" = Some (VNum 1))
          <-> "flex" ∈ ["width"; "height"; "flexDirection"; "flexWrap";
                        "flex"])
      /\ ((native !! "flex" = Some (VNum 1)
           /\ static !! "flex" = Some (VNum 1))
          <-> "flex" ∈ ["width"; "height"; "flexDirection"]).
Proof.
  split; [reflexivity|]. split; [reflexivity|].
  exact (fast_bucket_overlap (RN := sheet) geometryStyle "flex" (VNum 1)
           eq_refl eq_refl).
Defined.

(** X8 at the keys [flexDirection] and [Infinity]. *)
Lemma letter_keys_not_numeric_witness :
  allChars isLetter "flexDirection" = true
  /\ isNumber "flexDirection" = String.eqb "flexDirection" "Infinity"
  /\ allChars isLetter "Infinity" = true
  /\ isNumber "Infinity" = String.eqb "Infinity" "Infinity"
  /\ ("overflow" ∈ (includePropsForNativeStyles ++ excludePropsForStyles
                      ++ excludePropsForComponent)%list)
  /\ isNumber "overflow" = false.
Proof.
  destruct letter_keys_not_numeric as [Hletters Htables].
  assert (Hin : "overflow" ∈ (includePropsForNativeStyles
                                ++ excludePropsForStyles
                                ++ excludePropsForComponent)%list).
  { apply elem_of_app. right. apply elem_of_app. left.
    do 23 apply list_elem_of_further. apply list_elem_of_here. }
  split; [reflexivity|]. split; [exact (Hletters "flexDirection" eq_refl)|].
  split; [reflexivity|]. split; [exact (Hletters "Infinity" eq_refl)|].
  split; [exact Hin | exact (Htables "overflow" Hin)].
Defined.

(** X10 at the component without style prop. *)
Lemma falsy_style_passes_through_witness :
  truthy (prop (props bareComponent) "style") = false
  /\ props bareComponent !! "style" = None
  /\ exists (oT mT : value) (oP mP : gmap string value),
      wrapSample bareComponent
      = createElement oT oP
          [createElement mT mP
             [createElement ViewType
                {[ "style" := VUndefined; "testID" := VStr "box" ]} []]].
Proof.
  split; [reflexivity|]. split; [reflexivity|].
  exact (proj2 (falsy_style_passes_through (RN := sheet) bareComponent
                  VUndefined VUndefined VUndefined VUndefined eq_refl)
           eq_refl).
Defined.

(** X11 at the registered style id 1. *)
Lemma style_id_resolved_witness :
  truthy (VNum 1) = true /\ instanceofObject (VNum 1) = false
  /\ instanceofObject (sheet_flatten (VNum 1)) = true
  /\ getFilteredStyle (VNum 1) anyKey
     = getFilteredStyle (sheet_flatten (VNum 1)) anyKey.
Proof.
  do 3 (split; [reflexivity|]).
  exact (style_id_resolved (RN := sheet) (VNum 1) anyKey
           eq_refl eq_refl eq_refl).
Defined.

End Samples.
